(** * Carver: losses, metrics and configuration glue, embedded in Rocq

    The development follows [runners/losses/pigan_loss.py], [metrics/kid.py],
    [metrics/gan_snapshot_multiview.py] and [configs/stylesdf_config.py].

    Python floats are idealised as exact rationals ([Q]); Python exceptions
    are values of [exn]; a tensor is its shape together with its entries in
    row-major order.  Framework primitives (pooling, nearest interpolation,
    broadcasting, [torch.cat], [torch.autograd.grad], [torch.topk]) are
    written out as executable functions on that representation. *)

From Stdlib Require Import List String Ascii ZArith QArith Qround Qabs Qpower.
From Stdlib Require Import Setoid Morphisms.
From Stdlib Require Import Lia Lqa Bool Arith PeanoNat Permutation.
From Stdlib Require Decimal DecimalString.
Import ListNotations.

Set Implicit Arguments.
Close Scope Q_scope.
Close Scope Z_scope.
Open Scope nat_scope.

(** ** Python: exceptions, results, dictionaries, ranges *)

Module Py.

Inductive exn : Type :=
| AssertionError
| ValueError
| ZeroDivisionError
| KeyError
| TypeError
| RuntimeError
| NotImplementedError
| UnboundLocalError
| IndexError
| AttributeError
| FileNotFoundError.

Inductive result (A : Type) : Type :=
| Ok (a : A)
| Raise (e : exn).

Arguments Ok {A} a.
Arguments Raise {A} e.

Definition rbind {A B} (r : result A) (k : A -> result B) : result B :=
  match r with
  | Ok a => k a
  | Raise e => Raise e
  end.

(** Computations with side effects: a state [S] is threaded through, and
    what was done before an exception stays done. *)
Definition M (S A : Type) : Type := S -> result A * S.

Definition ret {S A} (a : A) : M S A := fun s => (Ok a, s).

Definition bind {S A B} (m : M S A) (k : A -> M S B) : M S B :=
  fun s => match m s with
           | (Ok a, s') => k a s'
           | (Raise e, s') => (Raise e, s')
           end.

Definition raise {S A} (e : exn) : M S A := fun s => (Raise e, s).

Definition lift {S A} (r : result A) : M S A := fun s => (r, s).

Definition modify {S} (f : S -> S) : M S unit := fun s => (Ok tt, f s).

Definition gets {S A} (f : S -> A) : M S A := fun s => (Ok (f s), s).

(** [assert c] *)
Definition assert {S} (c : bool) : M S unit :=
  if c then ret tt else raise AssertionError.

(** A [for] loop over a list with a loop-carried value. *)
Fixpoint for_each {S A X} (xs : list X) (body : X -> A -> M S A) (a : A)
  : M S A :=
  match xs with
  | [] => ret a
  | x :: xs' => bind (body x a) (for_each xs' body)
  end.

(** [range(start, stop, step)] for non-negative arguments; a zero step is
    a [ValueError]. *)
Definition range3 (start stop step : nat) : result (list nat) :=
  if step =? 0 then Raise ValueError
  else Ok (map (fun i => start + i * step)
               (seq 0 ((stop - start + step - 1) / step))).

Arguments range3 : simpl never.

(** [range(stop)] for an [int] that may be negative. *)
Definition range1 (stop : Z) : list nat := seq 0 (Z.to_nat stop).

(** [a % b] and [a // b] on non-negative ints. *)
Definition py_mod (a b : nat) : result nat :=
  if b =? 0 then Raise ZeroDivisionError else Ok (a mod b).

Definition py_floordiv (a b : nat) : result nat :=
  if b =? 0 then Raise ZeroDivisionError else Ok (a / b).

(** [int(x)] of a float: truncation toward zero. *)
Definition py_int (x : Q) : Z := Z.quot (Qnum x) (Z.pos (Qden x)).

(** A [dict] with string keys: insertion-ordered, one binding per key. *)
Definition dict (V : Type) : Type := list (string * V).

Fixpoint dict_get {V} (d : dict V) (k : string) : option V :=
  match d with
  | [] => None
  | (k', v) :: d' => if String.eqb k k' then Some v else dict_get d' k
  end.

Definition dict_mem {V} (k : string) (d : dict V) : bool :=
  match dict_get d k with Some _ => true | None => false end.

Fixpoint dict_set {V} (d : dict V) (k : string) (v : V) : dict V :=
  match d with
  | [] => [(k, v)]
  | (k', v') :: d' =>
      if String.eqb k k' then (k', v) :: d' else (k', v') :: dict_set d' k v
  end.

(** [d[k]] *)
Definition dict_item {V} (d : dict V) (k : string) : result V :=
  match dict_get d k with
  | Some v => Ok v
  | None => Raise KeyError
  end.

(** [d.get(k, default)] *)
Definition dict_get_default {V} (d : dict V) (k : string) (dflt : V) : V :=
  match dict_get d k with
  | Some v => v
  | None => dflt
  end.


End Py.

Export Py.

Declare Scope py_scope.
Delimit Scope py_scope with py.
Notation "x <- m ;; k" := (bind m (fun x => k))
  (at level 61, m at next level, right associativity) : py_scope.
Notation "m ;;; k" := (bind m (fun _ => k))
  (at level 61, right associativity) : py_scope.
Notation "x <-- r ;; k" := (rbind r (fun x => k))
  (at level 61, r at next level, right associativity) : py_scope.

(** ** Tensors *)

Module Torch.

Record tensor (A : Type) : Type := mkT { shape : list nat; data : list A }.

Arguments mkT {A} shape data.

Definition numel (s : list nat) : nat := fold_right Nat.mul 1 s.

(** Equality of shapes, [a.shape == b.shape]. *)
Definition shape_eqb (a b : list nat) : bool :=
  if list_eq_dec Nat.eq_dec a b then true else false.

(** The entries fill the shape. *)
Definition wf {A} (t : tensor A) : Prop :=
  List.length (data t) = numel (shape t).

Definition tmap {A B} (f : A -> B) (t : tensor A) : tensor B :=
  mkT (shape t) (map f (data t)).

(** First dimension, [t.shape[0]] / [len(t)]. *)
Definition dim0 {A} (t : tensor A) : nat := hd 0 (shape t).

Definition row_size {A} (t : tensor A) : nat := numel (tl (shape t)).

(** [t[a:b]] on the first dimension (indices are clamped, as Python does). *)
Definition slice0 {A} (t : tensor A) (a b : nat) : tensor A :=
  let n := dim0 t in
  let lo := Nat.min a n in
  let hi := Nat.max lo (Nat.min b n) in
  mkT ((hi - lo) :: tl (shape t))
      (firstn ((hi - lo) * row_size t) (skipn (lo * row_size t) (data t))).

(** [torch.cat([a, b])] along dimension 0.  Scalars cannot be
    concatenated, the trailing dimensions must agree, and a 1-D empty
    tensor is skipped. *)
Definition skipped {A} (t : tensor A) : bool :=
  match shape t with
  | [0] => true
  | _ => false
  end.

Definition cat {A} (a b : tensor A) : result (tensor A) :=
  if skipped a then
    match shape b with [] => Raise RuntimeError | _ => Ok b end
  else if skipped b then
    match shape a with [] => Raise RuntimeError | _ => Ok a end
  else
    match shape a, shape b with
    | n :: sa, m :: sb =>
        if shape_eqb sa sb
        then Ok (mkT ((n + m) :: sa) (data a ++ data b))
        else Raise RuntimeError
    | _, _ => Raise RuntimeError
    end.

(** *** Images: 4-D tensors [(N, C, H, W)] *)

Definition idx4 (C H W n c h w : nat) : nat := ((n * C + c) * H + h) * W + w.

Definition at4 (t : tensor Q) (n c h w : nat) : Q :=
  match shape t with
  | [_; C; H; W] => nth (idx4 C H W n c h w) (data t) 0%Q
  | _ => 0%Q
  end.

Definition build4 (N C H W : nat) (f : nat -> nat -> nat -> nat -> Q)
  : tensor Q :=
  mkT [N; C; H; W]
      (flat_map (fun n =>
         flat_map (fun c =>
           flat_map (fun h =>
             map (fun w => f n c h w) (seq 0 W)) (seq 0 H)) (seq 0 C))
         (seq 0 N)).

(** [F.avg_pool2d(t, kernel_size=2, stride=2, padding=0)].  The output
    extent is [floor((H - 2) / 2) + 1]; an empty channel or spatial
    dimension, or an output extent of zero, is a [RuntimeError]. *)
Definition avg_pool2d (t : tensor Q) : result (tensor Q) :=
  match shape t with
  | [N; C; H; W] =>
      if (C =? 0) || (H <? 2) || (W <? 2) then Raise RuntimeError
      else Ok (build4 N C (H / 2) (W / 2) (fun n c h w =>
                 (at4 t n c (2 * h) (2 * w) + at4 t n c (2 * h) (2 * w + 1)
                  + at4 t n c (2 * h + 1) (2 * w)
                  + at4 t n c (2 * h + 1) (2 * w + 1)) / 4)%Q)
  | _ => Raise RuntimeError
  end.

(** [F.interpolate(t, scale_factor=s, mode='nearest')]: the output extent
    is [floor(H * s)], output index [d] reads input index
    [min(floor(d * (1 / s)), H - 1)]; empty inputs or outputs are a
    [RuntimeError]. *)
Definition out_extent (L : nat) (s : Q) : nat :=
  Z.to_nat (Qfloor (inject_Z (Z.of_nat L) * s)).

Definition nearest_src (L : nat) (s : Q) (d : nat) : nat :=
  Nat.min (Z.to_nat (Qfloor (inject_Z (Z.of_nat d) * (1 / s)))) (L - 1).

Definition interpolate_nearest (t : tensor Q) (s : Q) : result (tensor Q) :=
  match shape t with
  | [N; C; H; W] =>
      let H' := out_extent H s in
      let W' := out_extent W s in
      if (C =? 0) || (H =? 0) || (W =? 0) || (H' =? 0) || (W' =? 0)
      then Raise RuntimeError
      else Ok (build4 N C H' W' (fun n c h w =>
                 at4 t n c (nearest_src H s h) (nearest_src W s w)))
  | _ => Raise RuntimeError
  end.

(** *** Broadcasting element-wise operations *)

(** Shapes are aligned on the right; two extents are compatible when they
    are equal or one of them is 1.  Both arguments are reversed shapes. *)
Fixpoint broadcast_rev (a b : list nat) : option (list nat) :=
  match a, b with
  | [], _ => Some b
  | _, [] => Some a
  | x :: a', y :: b' =>
      match broadcast_rev a' b' with
      | None => None
      | Some r =>
          if x =? y then Some (x :: r)
          else if x =? 1 then Some (y :: r)
          else if y =? 1 then Some (x :: r)
          else None
      end
  end.

Definition broadcast_shapes (a b : list nat) : option (list nat) :=
  option_map (@rev nat) (broadcast_rev (rev a) (rev b)).

(** Flat index, in an operand of (reversed) shape [a], of the entry that
    is broadcast to flat index [k] of the (reversed) result shape [r]. *)
Fixpoint src_index (r a : list nat) (k : nat) : nat :=
  match r, a with
  | d :: r', x :: a' =>
      (if x =? 1 then 0 else k mod d) + x * src_index r' a' (k / d)
  | _, _ => 0
  end.

Definition binop (f : Q -> Q -> Q) (t1 t2 : tensor Q) : result (tensor Q) :=
  match broadcast_shapes (shape t1) (shape t2) with
  | None => Raise RuntimeError
  | Some s =>
      Ok (mkT s (map (fun k =>
                   f (nth (src_index (rev s) (rev (shape t1)) k) (data t1) 0%Q)
                     (nth (src_index (rev s) (rev (shape t2)) k) (data t2) 0%Q))
                 (seq 0 (numel s))))
  end.

Definition tadd : tensor Q -> tensor Q -> result (tensor Q) := binop Qplus.

(** Tensor times Python number. *)
Definition tscale (t : tensor Q) (c : Q) : tensor Q :=
  tmap (fun x => x * c)%Q t.

Definition qsum (l : list Q) : Q := fold_right Qplus 0%Q l.

(** [t.mean()].  Floats are idealised as rationals, which have no
    not-a-number: the mean of an empty tensor, which is nan in torch, is
    [0 / 0 = 0] here, and nothing below relies on that value. *)
Definition tmean (t : tensor Q) : Q :=
  (qsum (data t) / inject_Z (Z.of_nat (List.length (data t))))%Q.

Definition scalar (q : Q) : tensor Q := mkT [] [q].


End Torch.

Export Torch.

Open Scope py_scope.

(** ** Autograd

    A tensor that takes part in differentiation has graph nodes as its
    entries.  A [Leaf] is an entry of a tensor that was entered on the tape
    as a variable; every other node records the operation that produced it
    together with the derivative the framework registers for it. *)

Module Autograd.

Inductive node : Type :=
| Leaf (i : nat)
| Const (q : Q)
| Add (a b : node)
| Mul (a b : node)
| Unary (f f' : Q -> Q) (a : node).

Section Tape.

(** Values of the variables. *)
Variable rho : nat -> Q.

Fixpoint eval (e : node) : Q :=
  match e with
  | Leaf i => rho i
  | Const q => q
  | Add a b => (eval a + eval b)%Q
  | Mul a b => (eval a * eval b)%Q
  | Unary f _ a => f (eval a)
  end.

(** Reverse mode: the cotangent [ct] of a node is handed down to its
    operands; [backprop e ct i] is what reaches variable [i]. *)
Fixpoint backprop (e : node) (ct : Q) (i : nat) : Q :=
  match e with
  | Leaf j => if i =? j then ct else 0%Q
  | Const _ => 0%Q
  | Add a b => (backprop a ct i + backprop b ct i)%Q
  | Mul a b => (backprop a (ct * eval b) i + backprop b (ct * eval a) i)%Q
  | Unary _ f' a => backprop a (ct * f' (eval a)) i
  end.

(** The partial derivative with respect to variable [i], by the sum,
    product and chain rules. *)
Fixpoint partial (e : node) (i : nat) : Q :=
  match e with
  | Leaf j => if i =? j then 1%Q else 0%Q
  | Const _ => 0%Q
  | Add a b => (partial a i + partial b i)%Q
  | Mul a b => (partial a i * eval b + eval a * partial b i)%Q
  | Unary _ f' a => (f' (eval a) * partial a i)%Q
  end.

End Tape.

Fixpoint occurs (i : nat) (e : node) : bool :=
  match e with
  | Leaf j => i =? j
  | Const _ => false
  | Add a b | Mul a b => occurs i a || occurs i b
  | Unary _ _ a => occurs i a
  end.

Definition is_leaf (e : node) : bool :=
  match e with Leaf _ => true | _ => false end.

Definition leaf_used (y e : node) : bool :=
  match e with Leaf i => occurs i y | _ => false end.

(** The inputs are variables of the tape and were used to compute [y]: a
    tensor counts as used when one of its entries occurs in the graph. *)
Definition differentiable (y : node) (inputs : tensor node) : bool :=
  forallb is_leaf (data inputs) && existsb (leaf_used y) (data inputs).

Definition grad_entry (rho : nat -> Q) (y : node) (e : node) : Q :=
  match e with
  | Leaf i => backprop rho y 1%Q i
  | _ => 0%Q
  end.

(** [torch.autograd.grad(outputs=[y], inputs=[inputs])[0]]; a
    [RuntimeError] when [y] cannot be differentiated with respect to the
    inputs. *)
Definition grad (rho : nat -> Q) (y : node) (inputs : tensor node)
  : result (tensor Q) :=
  if differentiable y inputs
  then Ok (tmap (grad_entry rho y) inputs)
  else Raise RuntimeError.

(** [t.sum()] *)
Definition tsum (t : tensor node) : node :=
  fold_left Add (data t) (Const 0%Q).

End Autograd.

Export Autograd.

(** ** [torch.cuda.amp.GradScaler] *)

Module GradScaler.

Record t : Type := mk { enabled : bool; scale_factor : Q }.

Definition is_enabled (sc : t) : bool := enabled sc.

(** [get_scale()]: 1.0 when disabled *)
Definition get_scale (sc : t) : Q :=
  if enabled sc then scale_factor sc else 1%Q.

(** [scale(outputs)], on a tensor of the graph: [outputs * scale] when
    enabled, [outputs] itself otherwise *)
Definition scale (sc : t) (outputs : tensor node) : tensor node :=
  if enabled sc then tmap (fun e => Mul e (Const (scale_factor sc))) outputs
  else outputs.

(** the same on values *)
Definition scale_values (sc : t) (outputs : tensor Q) : tensor Q :=
  if enabled sc then tscale outputs (scale_factor sc) else outputs.

End GradScaler.

(** ** Values of result dictionaries, sorting, [torch.topk], losses *)

Module Functional.

(** What a model's forward pass stores under a key: a tensor, [None], or
    something else. *)
Inductive pyval (A : Type) : Type :=
| VTensor (t : tensor A)
| VNone
| VOther.

Arguments VNone {A}.
Arguments VOther {A}.

(** Use of a dictionary value as a tensor; [e] is what Python raises when
    it is not one. *)
Definition as_tensor {A} (e : exn) (v : pyval A) : result (tensor A) :=
  match v with
  | VTensor t => Ok t
  | _ => Raise e
  end.

(** Use as an optional tensor ([labels], which may be [None]). *)
Definition as_optional {A} (v : pyval A) : result (option (tensor A)) :=
  match v with
  | VTensor t => Ok (Some t)
  | VNone => Ok None
  | VOther => Raise TypeError
  end.

Definition Qlt_bool (a b : Q) : bool := negb (Qle_bool b a).

(** [max(a, b)] and [min(a, b)] of Python: the first argument wins ties. *)
Definition py_max (a b : Q) : Q := if Qlt_bool a b then b else a.
Definition py_min (a b : Q) : Q := if Qlt_bool b a then b else a.


(** [F.mse_loss(input, target)] with the default mean reduction. *)
Definition mse_loss (input target : tensor Q) : result Q :=
  d <-- binop (fun a b => (a - b) * (a - b))%Q input target ;;
  Ok (tmean d).

(** [t.square().sum((1, 2, 3))] of a 4-D tensor. *)
Definition square_sum_123 (t : tensor Q) : result (tensor Q) :=
  match shape t with
  | [N; C; H; W] =>
      let r := C * H * W in
      Ok (mkT [N] (map (fun n =>
                     qsum (map (fun x => x * x)%Q
                               (firstn r (skipn (n * r) (data t)))))
                   (seq 0 N)))
  | _ => Raise IndexError
  end.

(** Descending insertion sort, for [torch.topk]. *)
Fixpoint insert_desc (x : Q) (l : list Q) : list Q :=
  match l with
  | [] => [x]
  | y :: l' => if Qle_bool y x then x :: l else y :: insert_desc x l'
  end.

Definition sort_desc (l : list Q) : list Q := fold_right insert_desc [] l.

(** Column [j] of a tensor seen as [dim0 t] rows of [row_size t] entries. *)
Definition column (t : tensor Q) (j : nat) : list Q :=
  map (fun i => nth (i * row_size t + j) (data t) 0%Q) (seq 0 (dim0 t)).

(** [torch.topk(t, k, dim=0).values]: along the first dimension, the [k]
    largest entries in descending order; [k] out of range is a
    [RuntimeError]. *)
Definition topk_values (t : tensor Q) (k : Z) : result (tensor Q) :=
  match shape t with
  | [] => if (k =? 0)%Z || (k =? 1)%Z then Ok t else Raise RuntimeError
  | n :: tail =>
      if (k <? 0)%Z || (Z.of_nat n <? k)%Z then Raise RuntimeError
      else
        let cols := map (fun j => firstn (Z.to_nat k) (sort_desc (column t j)))
                        (seq 0 (row_size t)) in
        Ok (mkT (Z.to_nat k :: tail)
                (flat_map (fun i => map (fun col => nth i col 0%Q) cols)
                          (seq 0 (Z.to_nat k))))
  end.

End Functional.

Export Functional.

(** ** [runners/losses/pigan_loss.py] *)

Module PiGANLoss.

(** [preprocess_image(images, lod)] *)
Definition preprocess_image (images : tensor Q) (lod : Q)
  : result (tensor Q) :=
  (* for _ in range(int(lod)): images = F.avg_pool2d(images, ...) *)
  images <-- fold_left (fun acc _ => rbind acc avg_pool2d)
                       (range1 (py_int lod)) (Ok images) ;;
  images <--
    (if negb (Qeq_bool lod (inject_Z (py_int lod))) then
       downsampled_images <-- avg_pool2d images ;;
       upsampled_images <-- interpolate_nearest downsampled_images 2 ;;
       let alpha := (lod - inject_Z (py_int lod))%Q in
       tadd (tscale images (1 - alpha)) (tscale upsampled_images alpha)
     else Ok images) ;;
  if (py_int lod =? 0)%Z then Ok images
  else interpolate_nearest images (2 ^ py_int lod)%Q.

(** The part of the runner the losses read.  The generator maps latent
    codes, labels and keyword arguments to a dictionary of results; the
    discriminator does the same on tensors of the graph, so that its
    scores can be differentiated with respect to its input images.
    [randn_stream] and [randint_stream] are the draws of the random number
    generator. *)
Record runner : Type := {
  iter : Z;
  lod : Q;
  batch_size : nat;
  enable_amp : bool;
  amp_scaler : GradScaler.t;
  latent_dim : list nat;
  label_dim : nat;
  generator : tensor Q -> option (tensor Q) -> dict Q -> dict (pyval Q);
  discriminator :
    tensor node -> option (tensor node) -> dict Q -> dict (pyval node);
  augment : tensor node -> tensor node;
  has_prob_tracker : bool;
  randn_stream : nat -> Q;
  randint_stream : nat -> nat
}.

(** What the losses change: the tape of graph variables, the position in
    the random streams, the forward passes made, the running statistics
    and the augmentation probability tracker. *)
Record st : Type := {
  tape : list Q;
  rng : nat;
  g_calls : list (tensor Q * option (tensor Q));
  d_calls : list (tensor node * option (tensor node));
  stats : list (string * tensor Q);
  tracker : list (tensor Q)
}.

Definition env (s : st) : nat -> Q := fun i => nth i (tape s) 0%Q.

Definition values (s : st) (t : tensor node) : tensor Q :=
  tmap (eval (env s)) t.

(** A tensor of values enters the graph as fresh variables. *)
Definition as_variable (t : tensor Q) : M st (tensor node) :=
  fun s =>
    (Ok (mkT (shape t) (map Leaf (seq (List.length (tape s))
                                     (List.length (data t))))),
     {| tape := tape s ++ data t; rng := rng s; g_calls := g_calls s;
        d_calls := d_calls s; stats := stats s; tracker := tracker s |}).


(** [torch.randn(shape)] *)
Definition randn (rn : runner) (sh : list nat) : M st (tensor Q) :=
  fun s =>
    (Ok (mkT sh (map (randn_stream rn) (seq (rng s) (numel sh)))),
     {| tape := tape s; rng := rng s + numel sh; g_calls := g_calls s;
        d_calls := d_calls s; stats := stats s; tracker := tracker s |}).

(** [F.one_hot(torch.randint(0, label_dim, (n,)), num_classes=label_dim)] *)
Definition rand_one_hot (rn : runner) (n : nat) : M st (tensor Q) :=
  fun s =>
    (Ok (mkT [n; label_dim rn]
           (flat_map (fun i =>
              map (fun c => if c =? randint_stream rn i mod label_dim rn
                            then 1%Q else 0%Q)
                  (seq 0 (label_dim rn)))
              (seq (rng s) n))),
     {| tape := tape s; rng := rng s + n; g_calls := g_calls s;
        d_calls := d_calls s; stats := stats s; tracker := tracker s |}).

(** [runner.running_stats.update({name: value})] *)
Definition update_stats (name : string) (value : tensor Q) : M st unit :=
  modify (fun s =>
    {| tape := tape s; rng := rng s; g_calls := g_calls s;
       d_calls := d_calls s; stats := stats s ++ [(name, value)];
       tracker := tracker s |}).


(** One forward pass of the generator. *)
Definition call_G (rn : runner) (latent : tensor Q)
    (label : option (tensor Q)) (kwargs : dict Q) : M st (dict (pyval Q)) :=
  fun s =>
    (Ok (generator rn latent label kwargs),
     {| tape := tape s; rng := rng s;
        g_calls := g_calls s ++ [(latent, label)];
        d_calls := d_calls s; stats := stats s; tracker := tracker s |}).

(** One forward pass of the discriminator on augmented images. *)
Definition call_D (rn : runner) (image : tensor node)
    (label : option (tensor node)) (kwargs : dict Q)
  : M st (dict (pyval node)) :=
  fun s =>
    (Ok (discriminator rn (augment rn image) label kwargs),
     {| tape := tape s; rng := rng s; g_calls := g_calls s;
        d_calls := d_calls s ++ [(image, label)];
        stats := stats s; tracker := tracker s |}).

(** The body of the loop over [result.items()], shared by [run_G] and
    [run_D]: concatenate tensors under a key seen before, keep [None],
    refuse anything else. *)
Definition merge_item {A} (results : dict (pyval A)) (key : string)
    (val : pyval A) : result (dict (pyval A)) :=
  match dict_get results key with
  | Some old =>
      match val with
      | VTensor v =>
          old_t <-- as_tensor TypeError old ;;
          c <-- cat old_t v ;;
          Ok (dict_set results key (VTensor c))
      | VNone => Ok (dict_set results key VNone)
      | VOther => Raise NotImplementedError
      end
  | None => Ok (dict_set results key val)
  end.

(** One turn of that loop; an exception of an earlier turn ends it. *)
Definition merge_step {A} (acc : Py.result (dict (pyval A)))
    (kv : string * pyval A) : Py.result (dict (pyval A)) :=
  r <-- acc ;; merge_item r (fst kv) (snd kv).

Definition merge_result {A} (results : dict (pyval A))
    (result : dict (pyval A)) : Py.result (dict (pyval A)) :=
  fold_left merge_step result (Ok results).

(** [run_G(runner, batch_size, sync, split, _G_kwargs)].  The
    [ddp_sync] context only decides when gradients are exchanged between
    replicas and has no effect here. *)
Definition run_G (rn : runner) (batch_size : option nat) (sync : bool)
    (split : nat) (_G_kwargs : dict Q) : M st (dict (pyval Q)) :=
  (* batch_size = batch_size or runner.batch_size *)
  let batch_size := match batch_size with
                    | Some (S n) => S n
                    | _ => PiGANLoss.batch_size rn
                    end in
  r <- lift (py_mod batch_size split) ;;
  assert (r =? 0) ;;;
  split_batch_size <- lift (py_floordiv batch_size split) ;;
  latents <- randn rn (batch_size :: latent_dim rn) ;;
  labels <- (if 0 <? label_dim rn
             then l <- rand_one_hot rn batch_size ;; ret (Some l)
             else ret None) ;;
  idxs <- lift (range3 0 batch_size split_batch_size) ;;
  for_each idxs (fun batch_idx results =>
    let latent := slice0 latents batch_idx (batch_idx + split_batch_size) in
    let label :=
      option_map (fun l => slice0 l batch_idx (batch_idx + split_batch_size))
                 labels in
    result <- call_G rn latent label _G_kwargs ;;
    lift (merge_result results result)) [].

(** [images.shape[0]] *)
Definition shape0 {A} (t : tensor A) : result nat :=
  match shape t with
  | [] => Raise IndexError
  | n :: _ => Ok n
  end.

(** [run_D(runner, images, labels, sync, split, _D_kwargs)] *)
Definition run_D (rn : runner) (images : tensor node)
    (labels : option (tensor node)) (sync : bool) (split : nat)
    (_D_kwargs : dict Q) : M st (dict (pyval node)) :=
  batch_size <- lift (shape0 images) ;;
  r <- lift (py_mod batch_size split) ;;
  assert (r =? 0) ;;;
  split_batch_size <- lift (py_floordiv batch_size split) ;;
  idxs <- lift (range3 0 batch_size split_batch_size) ;;
  for_each idxs (fun batch_idx results =>
    let image := slice0 images batch_idx (batch_idx + split_batch_size) in
    let label :=
      option_map (fun l => slice0 l batch_idx (batch_idx + split_batch_size))
                 labels in
    result <- call_D rn image label _D_kwargs ;;
    lift (merge_result results result)) [].

(** [compute_grad_penalty(images, scores, amp_scaler)]; [rho] holds the
    values of the variables of the graph. *)
Definition compute_grad_penalty (rho : nat -> Q) (images scores : tensor node)
    (amp_scaler : GradScaler.t) : result (tensor Q) :=
  let scores := GradScaler.scale amp_scaler scores in
  image_grad <-- grad rho (tsum scores) images ;;
  let image_grad :=
    if GradScaler.is_enabled amp_scaler
    then tmap (fun g => g / GradScaler.get_scale amp_scaler)%Q image_grad
    else image_grad in
  square_sum_123 image_grad.

(** The loss object.  Keyword arguments are numbers ([False] is 0). *)
Record loss : Type := {
  d_loss_kwargs : dict Q;
  g_loss_kwargs : dict Q;
  r1_gamma : Q;
  r2_gamma : Q;
  latent_gamma : Q;
  camera_gamma : Q;
  batch_split : nat
}.

(** [__init__(runner, d_loss_kwargs, g_loss_kwargs)], without the
    registration of the running statistics and the log lines. *)
Definition init (d_kwargs g_kwargs : option (dict Q)) : loss :=
  let d := match d_kwargs with Some (x :: l) => x :: l | _ => [] end in
  let g := match g_kwargs with Some (x :: l) => x :: l | _ => [] end in
  {| d_loss_kwargs := d;
     g_loss_kwargs := g;
     r1_gamma := dict_get_default d "r1_gamma" 10%Q;
     r2_gamma := dict_get_default d "r2_gamma" 0%Q;
     latent_gamma := dict_get_default d "latent_gamma" 0%Q;
     camera_gamma := dict_get_default d "camera_gamma" 15%Q;
     batch_split := Z.to_nat (py_int (dict_get_default d "batch_split" 2%Q)) |}.

Section Losses.

(** [F.softplus] and float exponentiation are not rational functions;
    they are taken as given. *)
Variable softplus : Q -> Q.
Variable fpow : Q -> Q -> Q.




(** [g_loss(runner, _data, sync)]: the number of scores kept by the
    top-k selection, the scores kept, and the value of the returned loss. *)
Definition topk_num_of (self : loss) (rn : runner) : result Z :=
  topk_percent <--
    (if dict_mem "topk_interval" (g_loss_kwargs self)
        && dict_mem "topk_v" (g_loss_kwargs self)
     then
       topk_interval <-- dict_item (g_loss_kwargs self) "topk_interval" ;;
       if Qeq_bool topk_interval 0 then Raise ZeroDivisionError
       else
         topk_v <-- dict_item (g_loss_kwargs self) "topk_v" ;;
         Ok (py_max (fpow (99 # 100) (inject_Z (iter rn) / topk_interval))
                    topk_v)
     else Ok 1%Q) ;;
  Ok (py_int (topk_percent * inject_Z (Z.of_nat (batch_size rn)))).

Definition g_loss (self : loss) (rn : runner) (sync : bool)
  : M st (tensor Q * Q) :=
  let noise_std := py_max 0 (1 - inject_Z (iter rn) / 5000)%Q in
  fade_steps <- lift (dict_item (d_loss_kwargs self) "fade_steps") ;;
  (if Qeq_bool fade_steps 0 then raise ZeroDivisionError else ret tt) ;;;
  let alpha := py_min 1 ((inject_Z (iter rn) - 1) / fade_steps)%Q in
  let _G_kwargs := [("noise_std"%string, noise_std)] in
  let _D_kwargs := [("alpha"%string, alpha)] in
  topk_num <- lift (topk_num_of self rn) ;;
  fake_results <- run_G rn None sync (batch_split self) _G_kwargs ;;
  fake_image <- lift (dict_item fake_results "image") ;;
  fake_label <- lift (dict_item fake_results "label") ;;
  fake_image <- lift (as_tensor AttributeError fake_image) ;;
  fake_images <- as_variable fake_image ;;
  fake_labels <- lift (as_optional fake_label) ;;
  fake_pred_results <- run_D rn fake_images
                         (option_map (tmap Const) fake_labels)
                         false 1 _D_kwargs ;;
  fake_score <- lift (dict_item fake_pred_results "score") ;;
  fake_score <- lift (as_tensor TypeError fake_score) ;;
  s <- gets (fun s => s) ;;
  fake_scores <- lift (topk_values (values s fake_score) topk_num) ;;
  let g_loss := tmap softplus (tmap Qopp fake_scores) in
  update_stats "Loss/G" g_loss ;;;
  let g_loss := GradScaler.scale_values (amp_scaler rn) g_loss in
  (* Identity penalty with fake samples. *)
  pred_latent <- lift (dict_item fake_pred_results "latent") ;;
  gen_latent <- lift (dict_item fake_results "latent") ;;
  pred_latent <- lift (as_tensor AttributeError pred_latent) ;;
  gen_latent <- lift (as_tensor AttributeError gen_latent) ;;
  latent_penalty <- lift (mse_loss (values s pred_latent) gen_latent) ;;
  pred_camera <- lift (dict_item fake_pred_results "camera") ;;
  gen_camera <- lift (dict_item fake_results "camera") ;;
  pred_camera <- lift (as_tensor AttributeError pred_camera) ;;
  gen_camera <- lift (as_tensor AttributeError gen_camera) ;;
  camera_penalty <- lift (mse_loss (values s pred_camera) gen_camera) ;;
  let id_penalty := (camera_penalty * camera_gamma self
                     + latent_penalty * latent_gamma self)%Q in
  let id_penalty :=
    GradScaler.scale_values (amp_scaler rn) (scalar id_penalty) in
  update_stats "Loss/G Fake ID Penalty" id_penalty ;;;
  total <- lift (tadd g_loss id_penalty) ;;
  ret (fake_scores, tmean total).

End Losses.

End PiGANLoss.

(** ** [configs/stylesdf_config.py] *)

Module StyleSDFConfig.

(** The loss settings written by [parse_options]; [r1_gamma] comes from
    the command line. *)
Definition d_loss_kwargs (r1_gamma : Q) : dict Q :=
  [("r1_gamma"%string, r1_gamma);
   ("latent_gamma"%string, 0%Q);
   ("camera_gamma"%string, 15%Q);
   ("batch_split"%string, 2%Q);
   ("fade_steps"%string, 10000%Q);
   ("full_pipeline"%string, 0%Q)].

Definition g_loss_kwargs : dict Q :=
  [("top_k_interval"%string, 2000%Q);
   ("top_v"%string, (6 # 10)%Q);
   ("eikonal_lambda"%string, (1 # 10)%Q);
   ("min_surf_lambda"%string, (5 # 100)%Q)].

End StyleSDFConfig.

(** ** What the metrics share ([BaseGANMetric] and its environment) *)

Module Metrics.

(** The generator under evaluation: its forward pass may depend on the
    training-mode flag. *)
Definition generator : Type :=
  bool -> tensor Q -> tensor Q -> dict (tensor Q) -> dict (pyval Q).

(** A call of [sample_camera_extrinsics] with fixed strategies. *)
Record camera : Type := {
  cam_batch : nat;
  radius_fix : Q;
  polar_fix : Q;
  azimuthal_fix : Q
}.

(** The attributes and inherited methods of a metric object.  The methods
    of the base class are not part of this development and are carried as
    they are. *)
Record base : Type := {
  name : string;
  batch_size : nat;
  latent_num : Z;
  latent_dim : list nat;
  label_dim : nat;
  seed : nat;
  is_chief : bool;
  world_size : nat;
  random_latents : bool;
  random_labels : bool;
  latent_file : string;
  label_file : string;
  replica_latent_num : nat;
  replica_indices : list nat;
  get_replica_num : nat -> nat;
  gather_batch_results : tensor Q -> tensor Q;
  append_batch_results : tensor Q -> list (tensor Q) -> list (tensor Q);
  gather_all_results : list (tensor Q) -> tensor Q;
  (* draws of a [torch.Generator] seeded with [seed] *)
  randn_seeded : nat -> nat -> Q;
  randint_seeded : nat -> nat -> nat
}.

(** What an evaluation changes or observes: the files, the training-mode
    flag of the generator and the calls of [eval()] ([false]) and
    [train()] ([true]), the forward passes with the flag they ran under,
    the cameras sampled, the inputs given to the inception model, the
    position of the data loader and of the two random generators, and the
    number of barrier calls. *)
Record st : Type := {
  files : dict (tensor Q);
  training : bool;
  mode_calls : list bool;
  g_calls : list (bool * tensor Q * tensor Q * dict (tensor Q));
  cam_calls : list camera;
  inception_calls : list (tensor Q);
  loader_pos : nat;
  g1_pos : nat;
  g2_pos : nat;
  syncs : nat
}.


(** [G.eval()] and [G.train()] *)
Definition set_mode (b : bool) : M st unit :=
  modify (fun s =>
    {| files := files s; training := b; mode_calls := mode_calls s ++ [b];
       g_calls := g_calls s; cam_calls := cam_calls s;
       inception_calls := inception_calls s; loader_pos := loader_pos s;
       g1_pos := g1_pos s; g2_pos := g2_pos s; syncs := syncs s |}).

(** [G(codes, labels, **kwargs)] *)
Definition forward (G : generator) (codes labels : tensor Q)
    (kwargs : dict (tensor Q)) : M st (dict (pyval Q)) :=
  fun s =>
    (Ok (G (training s) codes labels kwargs),
     {| files := files s; training := training s;
        mode_calls := mode_calls s;
        g_calls := g_calls s ++ [(training s, codes, labels, kwargs)];
        cam_calls := cam_calls s;
        inception_calls := inception_calls s; loader_pos := loader_pos s;
        g1_pos := g1_pos s; g2_pos := g2_pos s; syncs := syncs s |}).

Definition sample_camera (sample : camera -> dict (tensor Q)) (c : camera)
  : M st (dict (tensor Q)) :=
  fun s =>
    (Ok (sample c),
     {| files := files s; training := training s;
        mode_calls := mode_calls s; g_calls := g_calls s;
        cam_calls := cam_calls s ++ [c];
        inception_calls := inception_calls s; loader_pos := loader_pos s;
        g1_pos := g1_pos s; g2_pos := g2_pos s; syncs := syncs s |}).

(** [self.inception_model(images)] *)
Definition run_inception (inception : tensor Q -> tensor Q)
    (images : tensor Q) : M st (tensor Q) :=
  fun s =>
    (Ok (inception images),
     {| files := files s; training := training s;
        mode_calls := mode_calls s; g_calls := g_calls s;
        cam_calls := cam_calls s;
        inception_calls := inception_calls s ++ [images];
        loader_pos := loader_pos s;
        g1_pos := g1_pos s; g2_pos := g2_pos s; syncs := syncs s |}).

(** [next(data_loader)] *)
Definition next_batch (batches : nat -> dict (tensor Q))
  : M st (dict (tensor Q)) :=
  fun s =>
    (Ok (batches (loader_pos s)),
     {| files := files s; training := training s;
        mode_calls := mode_calls s; g_calls := g_calls s;
        cam_calls := cam_calls s;
        inception_calls := inception_calls s;
        loader_pos := S (loader_pos s);
        g1_pos := g1_pos s; g2_pos := g2_pos s; syncs := syncs s |}).

(** [torch.randn(shape, generator=g1)] *)
Definition randn_g1 (self : base) (sh : list nat) : M st (tensor Q) :=
  fun s =>
    (Ok (mkT sh (map (randn_seeded self (seed self))
                     (seq (g1_pos s) (numel sh)))),
     {| files := files s; training := training s;
        mode_calls := mode_calls s; g_calls := g_calls s;
        cam_calls := cam_calls s;
        inception_calls := inception_calls s; loader_pos := loader_pos s;
        g1_pos := g1_pos s + numel sh; g2_pos := g2_pos s;
        syncs := syncs s |}).

(** [F.one_hot(torch.randint(low=0, high=label_dim, size=(n,),
    generator=g2), num_classes=label_dim)] *)
Definition one_hot_g2 (self : base) (n : nat) : M st (tensor Q) :=
  fun s =>
    (Ok (mkT [n; label_dim self]
           (flat_map (fun i =>
              map (fun c =>
                     if c =? randint_seeded self (seed self) i
                             mod label_dim self
                     then 1%Q else 0%Q)
                  (seq 0 (label_dim self)))
              (seq (g2_pos s) n))),
     {| files := files s; training := training s;
        mode_calls := mode_calls s; g_calls := g_calls s;
        cam_calls := cam_calls s;
        inception_calls := inception_calls s; loader_pos := loader_pos s;
        g1_pos := g1_pos s; g2_pos := g2_pos s + n; syncs := syncs s |}).

(** [self.sync()] *)
Definition sync : M st unit :=
  modify (fun s =>
    {| files := files s; training := training s;
       mode_calls := mode_calls s; g_calls := g_calls s;
       cam_calls := cam_calls s;
       inception_calls := inception_calls s; loader_pos := loader_pos s;
       g1_pos := g1_pos s; g2_pos := g2_pos s; syncs := S (syncs s) |}).

(** [np.load(path)] and [np.save(path, array)] *)
Definition np_load (path : string) : M st (tensor Q) :=
  fun s => match dict_get (files s) path with
           | Some a => (Ok a, s)
           | None => (Raise FileNotFoundError, s)
           end.



(** [a[indices]] with a list of row indices *)
Definition take_rows (a : tensor Q) (indices : list nat)
  : result (tensor Q) :=
  if forallb (fun i => i <? dim0 a) indices
  then Ok (mkT (List.length indices :: tl (shape a))
               (flat_map (fun i => firstn (row_size a)
                                     (skipn (i * row_size a) (data a)))
                         indices))
  else Raise IndexError.

(** [a[:n]] for an [int] that may be negative *)
Definition slice_to (a : tensor Q) (n : Z) : tensor Q :=
  if (0 <=? n)%Z then slice0 a 0 (Z.to_nat n)
  else slice0 a 0 (dim0 a - Z.to_nat (- n)).




End Metrics.

(** ** [metrics/kid.py] *)

Module KIDMetric.

Import Metrics.

(** Dimension of inception feature *)
Definition FEATURE_DIM : nat := 2048.

Record t : Type := {
  super : base;
  real_num : Z;
  fake_num : Z;
  num_subsets : nat;
  max_subset_size : nat;
  inception_model : tensor Q -> tensor Q
}.






(** [_is_better_than(metric_name, new, ref)]: [None] is no judgement. *)
Definition _is_better_than (self : t) (metric_name : string) (new : Q)
    (ref : option Q) : option bool :=
  if String.eqb metric_name (name (super self)) then
    Some (match ref with
          | None => true
          | Some r => Qlt_bool new r
          end)
  else None.

End KIDMetric.

(** ** [metrics/gan_snapshot_multiview.py] *)

Module GANSnapshotMultiView.

Import Metrics.

Record t : Type := {
  super : base;
  min_val : Q;
  max_val : Q;
  radius : Q;
  azimuthal_start : Q;
  azimuthal_end : Q
}.

(** [np.linspace(a, b, n)] *)
Definition linspace (a b : Q) (n : nat) : list Q :=
  map (fun i => a + inject_Z (Z.of_nat i)
                    * ((b - a) / inject_Z (Z.of_nat (n - 1))))%Q
      (seq 0 n).

Section Synthesize.

(** The value of [np.pi], and [sample_camera_extrinsics] of the rendering
    package, which are given. *)
Variable pi : Q.
Variable sample_camera_extrinsics : camera -> dict (tensor Q).

(** [synthesize(generator, generator_kwargs)]: the images returned and the
    keyword-argument dictionary as the calls of [update] leave it. *)
Definition synthesize (self : t) (G : generator)
    (G_kwargs : dict (tensor Q))
  : M st (option (tensor Q) * dict (tensor Q)) :=
  let latent_num := latent_num (super self) in
  let batch_size := 1 in
  (* g1 is bound only when the latent codes are random *)
  g1 <- (if random_latents (super self) then ret true
         else a <- np_load (latent_file (super self)) ;;
              _ <- lift (take_rows a (replica_indices (super self))) ;;
              ret false) ;;
  labels <- (if random_labels (super self) then ret None
             else a <- np_load (label_file (super self)) ;;
                  a <- lift (take_rows a (replica_indices (super self))) ;;
                  ret (Some a)) ;;
  G_mode <- gets training ;;
  set_mode false ;;;
  starts <- lift (range3 0 (replica_latent_num (super self)) batch_size) ;;
  acc <-
    for_each starts (fun start acc =>
      let end_ := Nat.min (start + batch_size)
                          (replica_latent_num (super self)) in
      batch_codes <-
        (if g1 : bool
         then randn_g1 (super self)
                ((end_ - start) :: latent_dim (super self))
         else raise UnboundLocalError) ;;
      batch_labels <-
        (match labels with
         | None => if label_dim (super self) =? 0
                   then ret (mkT [end_ - start; 0] [])
                   else one_hot_g2 (super self) (end_ - start)
         | Some l => ret (slice0 l start end_)
         end) ;;
      for_each (linspace (azimuthal_start self) (azimuthal_end self) 8)
        (fun azimuthal acc =>
           let '(all_images, G_kwargs) := acc in
           cam <- sample_camera sample_camera_extrinsics
                    {| cam_batch := end_ - start;
                       radius_fix := radius self;
                       polar_fix := (pi / 2)%Q;
                       azimuthal_fix := azimuthal |} ;;
           cam2world_matrix <- lift (dict_item cam "cam2world_matrix") ;;
           let G_kwargs :=
             dict_set G_kwargs "cam2world_matrix" cam2world_matrix in
           out <- forward G batch_codes batch_labels G_kwargs ;;
           image <- lift (dict_item out "image") ;;
           batch_images <- lift (as_tensor TypeError image) ;;
           let gathered_images :=
             gather_batch_results (super self) batch_images in
           ret (append_batch_results (super self) gathered_images all_images,
                G_kwargs))
        acc)
      ([], G_kwargs) ;;
  let '(all_images, G_kwargs) := acc in
  let all_images :=
    slice_to (gather_all_results (super self) all_images) (latent_num * 8) in
  r <- (if is_chief (super self) then
          assert ((0 <=? latent_num * 8)%Z
                  && (dim0 all_images =? Z.to_nat (latent_num * 8))) ;;;
          ret (Some all_images)
        else
          assert (dim0 all_images =? 0) ;;;
          ret None) ;;
  (if G_mode then set_mode true else ret tt) ;;;
  sync ;;;
  ret (r, G_kwargs).

End Synthesize.

End GANSnapshotMultiView.

(** ** The losses: what the properties speak about *)

Module LossSpec.

Import PiGANLoss.

(** *** Level of detail, in the words of the specification *)

Definition downsample_times (k : nat) (images : tensor Q)
  : result (tensor Q) :=
  Nat.iter k (fun acc => rbind acc avg_pool2d) (Ok images).

Definition blend_with_coarser (images : tensor Q) (alpha : Q)
  : result (tensor Q) :=
  coarse <-- avg_pool2d images ;;
  upsampled <-- interpolate_nearest coarse 2 ;;
  tadd (tscale images (1 - alpha)) (tscale upsampled alpha).

(** Downsample [int(lod)] times; blend with the coarser level when [lod]
    is not an integer; upsample by [2 ** int(lod)]. *)
Definition lod_pipeline (images : tensor Q) (lod : Q) : result (tensor Q) :=
  let k := py_int lod in
  x <-- downsample_times (Z.to_nat k) images ;;
  y <-- (if Qeq_bool lod (inject_Z k) then Ok x
         else blend_with_coarser x (lod - inject_Z k)) ;;
  interpolate_nearest y (2 ^ k).

(** *** Batch splitting *)





(** *** Gradient penalty *)

Definition squared_norm (v : list Q) : Q := qsum (map (fun x => x * x)%Q v).

Definition is_euclidean_norm (v : list Q) (x : Q) : Prop :=
  (0 <= x)%Q /\ (x * x == squared_norm v)%Q.

(** Row [i] of a tensor whose rows have [r] entries. *)
Definition row {A} (t : tensor A) (r i : nat) : list A :=
  firstn r (skipn (i * r) (data t)).

(** The gradient of the summed scores with respect to sample [i] of the
    images, from the partial derivatives. *)
Definition grad_row (rho : nat -> Q) (scores images : tensor node)
    (r i : nat) : list Q :=
  map (fun e => match e with
                | Leaf j => partial rho (tsum scores) j
                | _ => 0%Q
                end)
      (row images r i).

(** Equal shapes, and entries equal as rationals. *)
Definition tensor_eq (a b : tensor Q) : Prop :=
  shape a = shape b /\ Forall2 Qeq (data a) (data b).

Definition result_eq (r1 r2 : result (tensor Q)) : Prop :=
  match r1, r2 with
  | Ok a, Ok b => tensor_eq a b
  | Raise e1, Raise e2 => e1 = e2
  | _, _ => False
  end.

(** *** Discriminator loss *)

Definition item (t : tensor Q) (i : nat) : Q := nth i (data t) 0%Q.




End LossSpec.

(** ** Concrete objects for the losses *)

Module DemoLoss.

Import PiGANLoss.

Definition first_of_row {A} (d : A) (t : tensor A) (i : nat) : A :=
  nth (i * row_size t) (data t) d.


(** A generator that paints the first latent coordinate on a 2x2 image. *)
Definition G (latents : tensor Q) (_ : option (tensor Q)) (_ : dict Q)
  : dict (pyval Q) :=
  let n := dim0 latents in
  [("image"%string,
    VTensor (mkT [n; 1; 2; 2]
                 (flat_map (fun i => repeat (first_of_row 0%Q latents i) 4)
                           (seq 0 n))));
   ("label"%string, VNone);
   ("latent"%string,
    VTensor (mkT [n; 1] (map (first_of_row 0%Q latents) (seq 0 n))));
   ("camera"%string, VTensor (mkT [n; 1] (repeat 0%Q n)))].




Definition no_amp : GradScaler.t := GradScaler.mk false 1%Q.

Definition s0 : st :=
  {| tape := []; rng := 0; g_calls := []; d_calls := []; stats := [];
     tracker := [] |}.

(** Four real 2x2 images, as variables of the tape. *)
Definition images : tensor node := mkT [4; 1; 2; 2] (map Leaf (seq 0 16)).


(** One image of one pixel and its score. *)
Definition pixel : tensor node := mkT [1; 1; 1; 1] [Leaf 0].
Definition pixel_score : tensor node := mkT [1] [Mul (Const 2%Q) (Leaf 0)].

(** A 3x3 image. *)
Definition image33 : tensor Q :=
  build4 1 1 3 3 (fun _ _ h w => inject_Z (Z.of_nat (3 * h + w))).

(** A 4x4 image. *)
Definition image44 : tensor Q :=
  build4 1 1 4 4 (fun _ _ h w => inject_Z (Z.of_nat (4 * h + w))).

(** The loss object of the StyleSDF configuration, and a batch of two
    real 2x2 images. *)
Definition self : loss :=
  init (Some (StyleSDFConfig.d_loss_kwargs 10%Q))
       (Some StyleSDFConfig.g_loss_kwargs).


End DemoLoss.

(** ** Reasoning about effectful code *)

Module Hoare.

(** [wp m Q s]: running [m] from [s] ends, with a value or an exception,
    in a state that satisfy [Q]. *)
Definition wp {S A} (m : M S A) (Q : result A -> S -> Prop) (s : S) : Prop :=
  Q (fst (m s)) (snd (m s)).

Definition on_ok {S A} (R : A -> S -> Prop) (E : exn -> S -> Prop)
  : result A -> S -> Prop :=
  fun r s => match r with Ok a => R a s | Raise e => E e s end.

(** [m] keeps the state inside [I], however it ends. *)
Definition preserves {S A} (I : S -> Prop) (m : M S A) : Prop :=
  forall s, I s -> I (snd (m s)).

End Hoare.

Export Hoare.

(** ** The metrics: what the properties speak about *)

Module MetricSpec.

Import Metrics.

Definition call_mode (c : bool * tensor Q * tensor Q * dict (tensor Q))
  : bool := fst (fst (fst c)).

(** The flag is [b], the mode switches made so far are [mc], and every
    forward pass made after the first [gc] ran under flag [b]. *)
Definition calls_under (b : bool) (mc : list bool)
    (gc : list (bool * tensor Q * tensor Q * dict (tensor Q))) (s : st)
  : Prop :=
  training s = b /\ mode_calls s = mc
  /\ exists calls, g_calls s = gc ++ calls
                   /\ Forall (fun c => call_mode c = b) calls.


Definition files_kept (f : dict (tensor Q)) (s : st) : Prop := files s = f.

(** The cameras from which one latent code is rendered. *)
Definition views (pi : Q) (self : GANSnapshotMultiView.t) : list camera :=
  map (fun azimuthal =>
         {| cam_batch := 1;
            radius_fix := GANSnapshotMultiView.radius self;
            polar_fix := (pi / 2)%Q;
            azimuthal_fix := azimuthal |})
      (GANSnapshotMultiView.linspace
         (GANSnapshotMultiView.azimuthal_start self)
         (GANSnapshotMultiView.azimuthal_end self) 8).

(** Since [s0], [k] latent codes were rendered, each from those cameras
    and with one forward pass per camera. *)
Definition rendered (pi : Q) (self : GANSnapshotMultiView.t) (s0 : st)
    (k : nat) (s : st) : Prop :=
  cam_calls s = cam_calls s0 ++ flat_map (fun _ => views pi self) (seq 0 k)
  /\ List.length (g_calls s) = List.length (g_calls s0) + 8 * k.

End MetricSpec.

(** ** Concrete objects, for running the definitions *)

Module Demo.

Import Metrics.

(** [np.concatenate(l, axis=0)] *)
Definition concat_rows (l : list (tensor Q)) : tensor Q :=
  fold_left (fun acc t => match cat acc t with Ok c => c | Raise _ => acc end)
            l (mkT [0] []).

(** A metric object of a single-process run over [n] latent codes. *)
Definition base_of (chief rnd_latents : bool) (n : nat) : base :=
  {| name := "demo"; batch_size := 1; latent_num := Z.of_nat n;
     latent_dim := [2]; label_dim := 0; seed := 0;
     is_chief := chief; world_size := 1;
     random_latents := rnd_latents; random_labels := true;
     latent_file := "latents.npy"; label_file := "labels.npy";
     replica_latent_num := n; replica_indices := seq 0 n;
     get_replica_num := fun k => k;
     gather_batch_results := fun t => if chief then t else mkT [0] [];
     append_batch_results := fun t l => if chief then l ++ [t] else l;
     gather_all_results := concat_rows;
     randn_seeded := fun _ i => inject_Z (Z.of_nat i);
     randint_seeded := fun _ i => i |}.

(** A generator that renders one 1x1 image per latent code: the pixel is
    1 in training mode and 0 in evaluation mode. *)
Definition G : generator :=
  fun mode codes _ _ =>
    [("image"%string,
      VTensor (mkT [dim0 codes; 1; 1; 1]
                   (repeat (if mode then 1%Q else 0%Q) (dim0 codes))))].

Definition sample_camera_extrinsics (c : camera) : dict (tensor Q) :=
  [("cam2world_matrix"%string,
    mkT [cam_batch c; 1; 3]
        (flat_map (fun _ => [radius_fix c; polar_fix c; azimuthal_fix c])
                  (seq 0 (cam_batch c))))].

Definition snapshot (chief rnd_latents : bool) (n : nat)
  : GANSnapshotMultiView.t :=
  {| GANSnapshotMultiView.super := base_of chief rnd_latents n;
     GANSnapshotMultiView.min_val := (-1)%Q;
     GANSnapshotMultiView.max_val := 1%Q;
     GANSnapshotMultiView.radius := 1%Q;
     GANSnapshotMultiView.azimuthal_start := 1%Q;
     GANSnapshotMultiView.azimuthal_end := 2%Q |}.

Definition inception (images : tensor Q) : tensor Q :=
  mkT [dim0 images; KIDMetric.FEATURE_DIM]
      (repeat (1 # 2)%Q (dim0 images * KIDMetric.FEATURE_DIM)).

Definition kid (chief : bool) (n : nat) : KIDMetric.t :=
  {| KIDMetric.super := base_of chief true n;
     KIDMetric.real_num := (-1)%Z;
     KIDMetric.fake_num := Z.of_nat n;
     KIDMetric.num_subsets := 50;
     KIDMetric.max_subset_size := 1000;
     KIDMetric.inception_model := inception |}.


Definition state_with (f : dict (tensor Q)) : st :=
  {| files := f;
     training := true; mode_calls := []; g_calls := []; cam_calls := [];
     inception_calls := []; loader_pos := 0; g1_pos := 0; g2_pos := 0;
     syncs := 0 |}.

(** No cache yet; latent codes on disk. *)
Definition s0 : st :=
  state_with [("latents.npy"%string, mkT [1; 2] [0%Q; 1%Q])].



End Demo.
(** * Properties *)

(** ** Rules for [wp] and [preserves] *)

Section Rules.

Context {S : Type}.

Lemma wp_bind {A B} (m : M S A) (k : A -> M S B) Q s :
  wp m (on_ok (fun a s' => wp (k a) Q s') (fun e s' => Q (Raise e) s')) s ->
  wp (bind m k) Q s.
Proof.
  unfold wp, bind, on_ok. destruct (m s) as [[a|e] s']; cbn; auto.
Qed.

Lemma wp_mono {A} (m : M S A) (Q Q' : result A -> S -> Prop) s :
  (forall r s', Q r s' -> Q' r s') -> wp m Q s -> wp m Q' s.
Proof. unfold wp. auto. Qed.

Lemma wp_preserved {A} (I : S -> Prop) (m : M S A) Q s :
  preserves I m -> I s -> (forall r s', I s' -> Q r s') -> wp m Q s.
Proof. unfold wp, preserves. auto. Qed.

Lemma preserves_ret {A} I (a : A) : preserves I (@ret S A a).
Proof. intros s H. exact H. Qed.

Lemma preserves_raise {A} I e : preserves I (@raise S A e).
Proof. intros s H. exact H. Qed.

Lemma preserves_lift {A} I (r : result A) : preserves I (@lift S A r).
Proof. intros s H. exact H. Qed.

Lemma preserves_assert I c : preserves I (@assert S c).
Proof. intros s H. unfold assert. now destruct c. Qed.

Lemma preserves_gets {A} I (f : S -> A) : preserves I (gets f).
Proof. intros s H. exact H. Qed.

Lemma preserves_bind {A B} I (m : M S A) (k : A -> M S B) :
  preserves I m -> (forall a, preserves I (k a)) -> preserves I (bind m k).
Proof.
  intros Hm Hk s H. unfold bind. specialize (Hm s H).
  destruct (m s) as [[a|e] s']; cbn in *; [apply Hk, Hm|exact Hm].
Qed.

Lemma preserves_for_each {A X} I (body : X -> A -> M S A) xs a :
  (forall x a, preserves I (body x a)) -> preserves I (for_each xs body a).
Proof.
  intro Hb. revert a. induction xs as [|x xs IH]; intro a; cbn [for_each].
  - apply preserves_ret.
  - apply preserves_bind; auto.
Qed.

Lemma wp_lift {A} (r : result A) Q (s : S) : Q r s -> wp (lift r) Q s.
Proof. exact (fun H => H). Qed.

Lemma wp_assert (c : bool) Q (s : S) :
  (c = true -> Q (Ok tt) s) -> (c = false -> Q (Raise AssertionError) s) ->
  wp (assert c) Q s.
Proof. destruct c; unfold wp; cbn; auto. Qed.

(** A loop whose invariant follows the part of the list already visited. *)
Lemma wp_for_each_at {A X} (body : X -> A -> M S A) (xs : list X)
    (I : list X -> A -> S -> Prop) (E : exn -> S -> Prop) :
  (forall done x rest a s, xs = done ++ x :: rest -> I done a s ->
     wp (body x a) (on_ok (I (done ++ [x])) E) s) ->
  forall a s, I [] a s -> wp (for_each xs body a) (on_ok (I xs) E) s.
Proof.
  intros Hbody.
  assert (H : forall rest done a s, xs = done ++ rest -> I done a s ->
                wp (for_each rest body a) (on_ok (I xs) E) s).
  { induction rest as [|x rest IH]; intros done a s Hxs HI.
    - cbn. rewrite app_nil_r in Hxs. now subst.
    - cbn [for_each]. apply wp_bind.
      eapply wp_mono; [|eapply Hbody; eauto].
      intros [a'|e] s'; cbn; [|auto].
      intro H. apply (IH (done ++ [x])); [|exact H].
      now rewrite <- app_assoc. }
  intros a s HI. now apply (H xs []).
Qed.

End Rules.

Lemma range3_unit n : range3 0 n 1 = Ok (seq 0 n).
Proof.
  unfold range3. cbn [Nat.eqb]. f_equal.
  replace ((n - 0 + 1 - 1) / 1) with n by (rewrite Nat.div_1_r; lia).
  rewrite <- (map_id (seq 0 n)) at 2. apply map_ext. intro i. lia.
Qed.



Lemma Qlt_bool_iff (a b : Q) : Qlt_bool a b = true <-> (a < b)%Q.
Proof.
  unfold Qlt_bool. rewrite negb_true_iff.
  split; intro H.
  - apply Qnot_le_lt. intro Hle. apply Qle_bool_iff in Hle. congruence.
  - destruct (Qle_bool b a) eqn:E; [|reflexivity].
    apply Qle_bool_iff in E. exfalso. apply (Qlt_not_le _ _ H E).
Qed.

(** ** The metrics *)

Module MetricFacts.

Import Metrics MetricSpec.

Section CallsUnder.

Variables (b : bool) (mc : list bool)
          (gc : list (bool * tensor Q * tensor Q * dict (tensor Q))).

Lemma preserves_forward G codes labels kw :
  preserves (calls_under b mc gc) (forward G codes labels kw).
Proof.
  intros s (Ht & Hm & calls & Hg & Hall). unfold forward. cbn.
  split; [exact Ht|]. split; [exact Hm|]. cbn.
  exists (calls ++ [(training s, codes, labels, kw)]).
  rewrite Hg, app_assoc. split; [reflexivity|].
  apply Forall_app. split; [exact Hall|].
  constructor; [exact Ht|constructor].
Qed.

Lemma preserves_randn_g1 self sh :
  preserves (calls_under b mc gc) (randn_g1 self sh).
Proof. intros s H. exact H. Qed.

Lemma preserves_one_hot_g2 self n :
  preserves (calls_under b mc gc) (one_hot_g2 self n).
Proof. intros s H. exact H. Qed.

Lemma preserves_run_inception f x :
  preserves (calls_under b mc gc) (run_inception f x).
Proof. intros s H. exact H. Qed.

Lemma preserves_sample_camera f c :
  preserves (calls_under b mc gc) (sample_camera f c).
Proof. intros s H. exact H. Qed.

Lemma preserves_sync : preserves (calls_under b mc gc) sync.
Proof. intros s H. exact H. Qed.

End CallsUnder.

Lemma preserves_np_load (I : st -> Prop) path : preserves I (np_load path).
Proof. intros s H. unfold np_load. now destruct (dict_get _ _). Qed.

Lemma files_kept_next_batch f b : preserves (files_kept f) (next_batch b).
Proof. intros s H. exact H. Qed.

Lemma files_kept_run_inception f m x :
  preserves (files_kept f) (run_inception m x).
Proof. intros s H. exact H. Qed.

Lemma files_kept_sync f : preserves (files_kept f) sync.
Proof. intros s H. exact H. Qed.

Ltac preserve :=
  repeat first
    [ progress intros
    | apply preserves_bind
    | apply preserves_for_each
    | apply preserves_ret
    | apply preserves_raise
    | apply preserves_lift
    | apply preserves_assert
    | apply preserves_gets
    | apply preserves_np_load
    | apply preserves_forward
    | apply preserves_randn_g1
    | apply preserves_one_hot_g2
    | apply preserves_run_inception
    | apply preserves_sample_camera
    | apply preserves_sync
    | apply files_kept_next_batch
    | apply files_kept_run_inception
    | apply files_kept_sync
    | match goal with
      | |- preserves _ (if ?c then _ else _) => destruct c
      | |- preserves _ (match ?c with _ => _ end) => destruct c
      end ].









(** C9.  Lower KID is better: under the metric's own name the answer is
    [True] exactly when there is no reference value or the new value is
    below it, and under any other name there is no judgement. *)
Theorem is_better_than_lower_is_better :
  forall (self : KIDMetric.t) (metric_name : string) (new : Q)
         (ref : option Q),
    (metric_name = name (KIDMetric.super self) ->
       (exists b, KIDMetric._is_better_than self metric_name new ref = Some b)
       /\ (KIDMetric._is_better_than self metric_name new ref = Some true
           <-> ref = None \/ exists r, ref = Some r /\ (new < r)%Q))
    /\ (metric_name <> name (KIDMetric.super self) ->
        KIDMetric._is_better_than self metric_name new ref = None).
Proof.
  intros self metric_name new ref. unfold KIDMetric._is_better_than. split.
  - intros ->. rewrite String.eqb_refl. split; [eauto|].
    destruct ref as [r|].
    + split.
      * intro H. right. exists r. split; [reflexivity|].
        apply Qlt_bool_iff. congruence.
      * intros [H|[r' [H1 H2]]]; [discriminate|].
        inversion H1; subst r'. f_equal. now apply Qlt_bool_iff.
    + split; auto.
  - intro Hne. apply String.eqb_neq in Hne. now rewrite Hne.
Qed.

Lemma is_better_than_lower_is_better_witness :
  (KIDMetric._is_better_than (Demo.kid true 1) "demo" (1 # 4)%Q
                             (Some (1 # 2)%Q) = Some true)
  /\ KIDMetric._is_better_than (Demo.kid true 1) "FID" (1 # 4)%Q
                               (Some (1 # 2)%Q) = None.
Proof.
  split.
  - apply (is_better_than_lower_is_better (Demo.kid true 1) "demo" (1 # 4)%Q
             (Some (1 # 2)%Q)); [reflexivity|].
    right. exists (1 # 2)%Q. split; [reflexivity|]. reflexivity.
  - apply (is_better_than_lower_is_better (Demo.kid true 1) "FID" (1 # 4)%Q
             (Some (1 # 2)%Q)). discriminate.
Defined.




(** C7.  When the latent codes come from a file and this replica has at
    least one of them, [synthesize] raises before any forward pass: the
    random generator [g1] its loop reads was never bound. *)
Theorem synthesize_file_latents_never_render :
  forall (pi : Q) (sample : camera -> dict (tensor Q))
         (self : GANSnapshotMultiView.t) (G : generator)
         (kw : dict (tensor Q)) (s0 : st),
    random_latents (GANSnapshotMultiView.super self) = false ->
    0 < replica_latent_num (GANSnapshotMultiView.super self) ->
    (exists e,
       fst (GANSnapshotMultiView.synthesize pi sample self G kw s0) = Raise e)
    /\ g_calls (snd (GANSnapshotMultiView.synthesize pi sample self G kw s0))
       = g_calls s0.
Proof.
  intros pi sample self G kw s0 Hrnd Hn.
  change (wp (GANSnapshotMultiView.synthesize pi sample self G kw)
             (fun r s => (exists e, r = Raise e) /\ g_calls s = g_calls s0)
             s0).
  unfold GANSnapshotMultiView.synthesize. rewrite Hrnd.
  apply wp_bind. apply wp_bind. unfold wp at 1, np_load.
  destruct (dict_get _ _); cbn; [|eauto].
  apply wp_bind. unfold wp at 1, lift. cbn.
  destruct (take_rows _ _); cbn; [|eauto].
  unfold wp at 1. cbn.
  apply wp_bind, (wp_preserved (I := eq s0)); [preserve|reflexivity|].
  intros [labels|e] ? <-; cbn; [|eauto].
  apply wp_bind. unfold wp at 1. cbn.
  apply wp_bind. unfold wp at 1. cbn.
  apply wp_bind. unfold wp at 1, lift. rewrite range3_unit. cbn.
  destruct (replica_latent_num (GANSnapshotMultiView.super self)) as [|n];
    [lia|].
  cbn [seq for_each].
  unfold wp. cbn. eauto.
Qed.

(** The failing call itself: one latent code on disk, chief process. *)
Lemma synthesize_file_latents_unbound :
  fst (GANSnapshotMultiView.synthesize 3%Q Demo.sample_camera_extrinsics
         (Demo.snapshot true false 1) Demo.G [] Demo.s0)
  = Raise UnboundLocalError
  /\ g_calls (snd (GANSnapshotMultiView.synthesize 3%Q
                     Demo.sample_camera_extrinsics
                     (Demo.snapshot true false 1) Demo.G [] Demo.s0)) = [].
Proof.
  split; [reflexivity|].
  apply (synthesize_file_latents_never_render 3%Q
           Demo.sample_camera_extrinsics (Demo.snapshot true false 1)
           Demo.G [] Demo.s0); [reflexivity|cbn; lia].
Defined.

Lemma linspace_length a b n :
  List.length (GANSnapshotMultiView.linspace a b n) = n.
Proof. unfold GANSnapshotMultiView.linspace. now rewrite length_map, length_seq. Qed.

Lemma synthesize_views pi sample self G kw s0 :
  random_latents (GANSnapshotMultiView.super self) = true ->
  wp (GANSnapshotMultiView.synthesize pi sample self G kw)
     (on_ok (fun r s =>
               rendered pi self s0
                 (replica_latent_num (GANSnapshotMultiView.super self)) s
               /\ if is_chief (GANSnapshotMultiView.super self)
                  then exists images,
                         fst r = Some images
                         /\ (0 <= latent_num (GANSnapshotMultiView.super self) * 8)%Z
                         /\ dim0 images
                            = Z.to_nat (latent_num (GANSnapshotMultiView.super self) * 8)
                  else fst r = None)
            (fun _ _ => True)) s0.
Proof.
  intro Hrnd. unfold GANSnapshotMultiView.synthesize. rewrite Hrnd.
  set (n := replica_latent_num (GANSnapshotMultiView.super self)).
  apply wp_bind. unfold wp at 1. cbn [ret fst snd on_ok].
  apply wp_bind, (wp_preserved (I := eq s0)); [preserve|reflexivity|].
  intros [labels|e] ? <-; cbn [on_ok]; [|exact I].
  apply wp_bind. unfold wp at 1. cbn [gets fst snd on_ok].
  apply wp_bind. unfold wp at 1. cbn [set_mode modify fst snd on_ok].
  match goal with |- wp _ _ ?s => set (s1 := s) end.
  assert (H1 : rendered pi self s0 0 s1).
  { split; cbn; [now rewrite app_nil_r|lia]. }
  clearbody s1.
  apply wp_bind, wp_lift. rewrite range3_unit. cbn [on_ok].
  apply wp_bind.
  eapply wp_mono;
    [|apply (@wp_for_each_at _ _ _ _ (seq 0 n)
               (fun done _ s => rendered pi self s0 (List.length done) s)
               (fun _ _ => True))].
  - intros [[all kw']|e] s; cbn [on_ok]; [|auto].
    rewrite length_seq. intro Hn.
    apply wp_bind.
    assert (Hres : forall Q' : result (option (tensor Q)) -> st -> Prop,
      (forall e, Q' (Raise e) s) ->
      (forall r, (if is_chief (GANSnapshotMultiView.super self)
                  then exists images, r = Some images
                       /\ (0 <= latent_num (GANSnapshotMultiView.super self) * 8)%Z
                       /\ dim0 images = Z.to_nat (latent_num (GANSnapshotMultiView.super self) * 8)
                  else r = None) -> Q' (Ok r) s) ->
      wp (if is_chief (GANSnapshotMultiView.super self)
          then assert ((0 <=? latent_num (GANSnapshotMultiView.super self) * 8)%Z
                       && (dim0 (slice_to (gather_all_results (GANSnapshotMultiView.super self) all)
                                   (latent_num (GANSnapshotMultiView.super self) * 8))
                           =? Z.to_nat (latent_num (GANSnapshotMultiView.super self) * 8))) ;;;
               ret (Some (slice_to (gather_all_results (GANSnapshotMultiView.super self) all)
                                   (latent_num (GANSnapshotMultiView.super self) * 8)))
          else assert (dim0 (slice_to (gather_all_results (GANSnapshotMultiView.super self) all)
                                   (latent_num (GANSnapshotMultiView.super self) * 8)) =? 0) ;;;
               ret None) Q' s).
    { intros Q' HR HO. destruct (is_chief (GANSnapshotMultiView.super self)).
      - apply wp_bind, wp_assert; cbn [on_ok]; [|intros _; apply HR].
        intro Hc. apply andb_prop in Hc. destruct Hc as [Ha Hb].
        apply HO. eexists. split; [reflexivity|].
        split; [now apply Z.leb_le|now apply Nat.eqb_eq].
      - apply wp_bind, wp_assert; cbn [on_ok]; [|intros _; apply HR].
        intros _. now apply HO. }
    apply Hres; cbn [on_ok]; [auto|]. intros r Hr.
    destruct Hn as [Hcam Hg].
    destruct (training s0); unfold wp; cbn; (split; [split; assumption|exact Hr]).
  - intros done start rest [all kw'] s Hxs Hdone.
    assert (Hstart : start < n).
    { assert (In start (seq 0 n)) by (rewrite Hxs; apply in_elt).
      apply in_seq in H. lia. }
    replace (Nat.min (start + 1) n - start) with 1 by lia.
    apply wp_bind. unfold wp at 1. cbn [randn_g1 fst snd on_ok].
    match goal with |- wp _ _ ?s => set (s2 := s) end.
    assert (H2 : rendered pi self s0 (List.length done) s2) by exact Hdone.
    clearbody s2. clear Hdone.
    apply wp_bind.
    apply (wp_preserved (I := rendered pi self s0 (List.length done)));
      [|exact H2|].
    { destruct labels; [|destruct (_ =? 0)]; intros ? H; exact H. }
    intros [batch_labels|e] s3 H3; cbn [on_ok]; [|exact I].
    set (az := GANSnapshotMultiView.linspace _ _ 8).
    pose (I' := fun (seen : list Q) (_ : list (tensor Q) * dict (tensor Q))
                    (s' : st) =>
      cam_calls s'
        = cam_calls s0
          ++ flat_map (fun _ => views pi self) (seq 0 (List.length done))
          ++ map (fun azimuthal =>
                    {| cam_batch := 1;
                       radius_fix := GANSnapshotMultiView.radius self;
                       polar_fix := (pi / 2)%Q;
                       azimuthal_fix := azimuthal |}) seen
      /\ List.length (g_calls s')
         = List.length (g_calls s0) + 8 * List.length done
           + List.length seen).
    eapply wp_mono;
      [|apply (@wp_for_each_at _ _ _ _ az I' (fun _ _ => True))].
    + intros [acc|e] s4; cbn [on_ok]; [|auto]. unfold I', rendered.
      intros [Hc Hg]. rewrite length_app. cbn [List.length].
      rewrite seq_app, flat_map_app. cbn [seq flat_map Nat.add].
      rewrite app_nil_r. split.
      * rewrite Hc. reflexivity.
      * rewrite Hg. unfold az. rewrite linspace_length. lia.
    + intros seen azimuthal rest' [imgs kws] s4 Haz [Hc Hg].
      apply wp_bind. unfold wp at 1. cbn [sample_camera fst snd on_ok].
      apply wp_bind, wp_lift.
      destruct (dict_item _ _) as [m|e]; cbn [on_ok]; [|exact I].
      apply wp_bind. unfold wp at 1. cbn [forward fst snd on_ok].
      apply wp_bind, wp_lift.
      destruct (dict_item _ _) as [im|e]; cbn [on_ok]; [|exact I].
      apply wp_bind, wp_lift.
      destruct (as_tensor _ _) as [bi|e]; cbn [on_ok]; [|exact I].
      unfold wp, I'. cbn [ret fst snd on_ok cam_calls g_calls].
      rewrite map_app, !length_app. cbn [map List.length]. split.
      * rewrite Hc, <- !app_assoc. reflexivity.
      * rewrite Hg. lia.
    + unfold I'. destruct H3 as [Hc Hg]. cbn [map List.length].
      rewrite app_nil_r. split; [exact Hc|lia].
  - exact H1.
Qed.

(** The eight azimuthal angles run from the start to the end, both
    included, in equal steps. *)
Lemma linspace_evenly_spaced (a b : Q) :
  List.length (GANSnapshotMultiView.linspace a b 8) = 8
  /\ (forall i, i < 8 ->
        (nth i (GANSnapshotMultiView.linspace a b 8) 0
         == a + inject_Z (Z.of_nat i) * ((b - a) / 7))%Q)
  /\ (nth 0 (GANSnapshotMultiView.linspace a b 8) 0 == a)%Q
  /\ (nth 7 (GANSnapshotMultiView.linspace a b 8) 0 == b)%Q.
Proof.
  split; [apply linspace_length|]. split; [|split].
  - intros i Hi.
    do 8 (destruct i as [|i]; [cbn; reflexivity|]). lia.
  - cbn. ring.
  - cbn. field.
Qed.

(** With random latent codes [synthesize] does what C7 describes: when it
    returns, each of the latent codes of this replica was rendered by one
    forward pass from each of the eight cameras; the chief returns
    [latent_num * 8] images and every other process [None]. *)
Lemma synthesize_eight_views pi sample self G kw s0 r kw' s :
  random_latents (GANSnapshotMultiView.super self) = true ->
  GANSnapshotMultiView.synthesize pi sample self G kw s0 = (Ok (r, kw'), s) ->
  rendered pi self s0 (replica_latent_num (GANSnapshotMultiView.super self)) s
  /\ if is_chief (GANSnapshotMultiView.super self)
     then exists images,
            r = Some images
            /\ (0 <= latent_num (GANSnapshotMultiView.super self) * 8)%Z
            /\ dim0 images
               = Z.to_nat (latent_num (GANSnapshotMultiView.super self) * 8)
     else r = None.
Proof.
  intros Hrnd E. pose proof (@synthesize_views pi sample self G kw s0 Hrnd) as H.
  unfold wp in H. rewrite E in H. exact H.
Qed.

End MetricFacts.

(** ** The losses *)

Module LossFacts.

Import PiGANLoss LossSpec.


(** *** Lists, sums and dictionaries *)

Lemma map_nth_seq_id {A} (d : A) (l : list A) :
  map (fun i => nth i l d) (seq 0 (List.length l)) = l.
Proof.
  induction l as [|a l IH]; [reflexivity|].
  cbn [List.length seq map nth]. f_equal.
  rewrite <- seq_shift, map_map. exact IH.
Qed.



Lemma qsum_scale (c : Q) (l : list Q) :
  (qsum (map (fun x => c * x) l) == c * qsum l)%Q.
Proof.
  induction l as [|x l IH]; cbn; [ring|]. unfold qsum in *. rewrite IH. ring.
Qed.

Lemma qsum_ext {A} (f g : A -> Q) (l : list A) :
  (forall a, In a l -> (f a == g a)%Q) ->
  (qsum (map f l) == qsum (map g l))%Q.
Proof.
  induction l as [|a l IH]; intro H; cbn; [reflexivity|].
  unfold qsum in *. rewrite (H a) by (now left). rewrite IH; [reflexivity|].
  intros b Hb. apply H. now right.
Qed.

Lemma qsum_Forall2 (l l' : list Q) :
  Forall2 Qeq l l' -> (qsum l == qsum l')%Q.
Proof.
  induction 1 as [|x y l l' Hxy _ IH]; cbn; [reflexivity|].
  unfold qsum in *. now rewrite Hxy, IH.
Qed.

Lemma Forall2_map_Qeq {A} (f g : A -> Q) (l : list A) :
  (forall a, (f a == g a)%Q) -> Forall2 Qeq (map f l) (map g l).
Proof. intro H. induction l; cbn; constructor; auto. Qed.

Lemma Forall2_firstn {A} (R : A -> A -> Prop) n (l l' : list A) :
  Forall2 R l l' -> Forall2 R (firstn n l) (firstn n l').
Proof.
  intro H. revert n. induction H; intro n; destruct n; cbn; constructor; auto.
Qed.

Lemma Forall2_skipn {A} (R : A -> A -> Prop) n (l l' : list A) :
  Forall2 R l l' -> Forall2 R (skipn n l) (skipn n l').
Proof.
  intro H. revert n. induction H; intro n; destruct n; cbn; auto.
Qed.

Lemma Forall2_nth_Qeq (l l' : list Q) i :
  Forall2 Qeq l l' -> (nth i l 0 == nth i l' 0)%Q.
Proof.
  intro H. revert i. induction H as [|x y l l' Hxy _ IH]; intro i;
    destruct i; cbn; auto; reflexivity.
Qed.

Lemma map_squares_Forall2 (l l' : list Q) :
  Forall2 Qeq l l' ->
  Forall2 Qeq (map (fun x => x * x)%Q l) (map (fun x => x * x)%Q l').
Proof.
  induction 1 as [|x y ? ? Hxy _ IH]; cbn; constructor; [|exact IH].
  now rewrite Hxy.
Qed.

Lemma Forall2_length_Qeq (l l' : list Q) :
  Forall2 Qeq l l' -> List.length l = List.length l'.
Proof. induction 1; cbn; congruence. Qed.

Section Dict.
Context {V : Type}.




End Dict.

(** *** Batch splitting: [run_G] and [run_D] *)

Section Merge.
Context {A : Type}.

Lemma merge_raise items e :
  fold_left (@merge_step A) items (Raise e) = Raise e.
Proof. induction items; cbn; auto. Qed.







End Merge.






(** *** Level of detail: [preprocess_image] *)

Lemma py_int_floor (x : Q) : (0 <= x)%Q -> py_int x = Qfloor x.
Proof.
  destruct x as [n d]. unfold Qle, py_int, Qfloor. cbn.
  intro H. apply Z.quot_div_nonneg; lia.
Qed.

Lemma py_int_nonneg (x : Q) : (0 <= x)%Q -> (0 <= py_int x)%Z.
Proof.
  intro H. rewrite py_int_floor by exact H.
  change 0%Z with (Qfloor 0). now apply Qfloor_resp_le.
Qed.

Lemma ceiling_of_integer (x : Q) :
  Qeq_bool x (inject_Z (Qfloor x)) = true -> Qceiling x = Qfloor x.
Proof.
  intro H. apply Qeq_bool_iff in H. rewrite H at 1. apply Qceiling_Z.
Qed.

Lemma ceiling_of_fraction (x : Q) :
  Qeq_bool x (inject_Z (Qfloor x)) = false ->
  Qceiling x = (Qfloor x + 1)%Z.
Proof.
  intro H.
  assert (Hne : ~ (x == inject_Z (Qfloor x))%Q).
  { intro E. apply Qeq_bool_iff in E. congruence. }
  pose proof (Qfloor_le x) as H1. pose proof (Qlt_floor x) as H2.
  pose proof (Qle_ceiling x) as H3. pose proof (Qceiling_lt x) as H4.
  assert (Hlt : (inject_Z (Qfloor x) < x)%Q).
  { apply Qle_lteq in H1. destruct H1 as [H1|H1]; [exact H1|].
    exfalso. apply Hne. now symmetry. }
  assert (A : (Qfloor x < Qceiling x)%Z).
  { rewrite Zlt_Qlt. eapply Qlt_le_trans; eauto. }
  assert (B : (Qceiling x - 1 < Qfloor x + 1)%Z).
  { rewrite Zlt_Qlt. eapply Qlt_trans; eauto. }
  lia.
Qed.

Lemma pow2_inject (m : nat) :
  (2 ^ Z.of_nat m == inject_Z (2 ^ Z.of_nat m))%Q.
Proof.
  induction m as [|m IH]; [reflexivity|].
  rewrite Nat2Z.inj_succ, <- Z.add_1_r.
  rewrite Qpower_plus by discriminate.
  rewrite Z.pow_add_r by lia. rewrite inject_Z_mult, IH. reflexivity.
Qed.

Lemma pow2_nat (m : nat) : (2 ^ Z.of_nat m)%Z = Z.of_nat (2 ^ m).
Proof. rewrite Nat2Z.inj_pow. reflexivity. Qed.

Lemma out_extent_integer (L : nat) (s : Q) (z : nat) :
  (s == inject_Z (Z.of_nat z))%Q -> out_extent L s = L * z.
Proof.
  intro Hs. unfold out_extent. rewrite Hs, <- inject_Z_mult, Qfloor_Z.
  lia.
Qed.

Lemma avg_pool2d_shape (t : tensor Q) N C H W :
  shape t = [N; C; H; W] -> 0 < C -> 2 <= H -> 2 <= W ->
  exists t', avg_pool2d t = Ok t' /\ shape t' = [N; C; H / 2; W / 2].
Proof.
  intros Hs HC HH HW. unfold avg_pool2d. rewrite Hs.
  destruct (Nat.eqb_spec C 0); [lia|].
  destruct (Nat.ltb_spec H 2); [lia|].
  destruct (Nat.ltb_spec W 2); [lia|]. cbn [orb].
  eexists. split; reflexivity.
Qed.

Lemma interpolate_shape (t : tensor Q) N C H W (s : Q) (z : nat) :
  shape t = [N; C; H; W] -> 0 < C -> 0 < H -> 0 < W -> 0 < z ->
  (s == inject_Z (Z.of_nat z))%Q ->
  exists t', interpolate_nearest t s = Ok t'
             /\ shape t' = [N; C; H * z; W * z].
Proof.
  intros Hs HC HH HW Hz Hq. unfold interpolate_nearest. rewrite Hs.
  rewrite !(@out_extent_integer _ s z Hq).
  destruct (Nat.eqb_spec C 0); [lia|].
  destruct (Nat.eqb_spec H 0); [lia|].
  destruct (Nat.eqb_spec W 0); [lia|].
  destruct (Nat.eqb_spec (H * z) 0); [nia|].
  destruct (Nat.eqb_spec (W * z) 0); [nia|]. cbn [orb].
  eexists. split; reflexivity.
Qed.

Lemma pool_fold_shape (k : nat) :
  forall (t : tensor Q) (a N C h w : nat),
    shape t = [N; C; 2 ^ k * h; 2 ^ k * w] -> 0 < C -> 0 < h -> 0 < w ->
    exists t',
      fold_left (fun acc _ => rbind acc avg_pool2d) (seq a k) (Ok t) = Ok t'
      /\ shape t' = [N; C; h; w].
Proof.
  induction k as [|k IH]; intros t a N C h w Hs HC Hh Hw.
  - exists t. split; [reflexivity|]. rewrite Hs. cbn. f_equal. f_equal. f_equal; [lia|f_equal; lia].
  - cbn [seq fold_left rbind].
    assert (H2k : 0 < 2 ^ k) by (apply Nat.neq_0_lt_0, Nat.pow_nonzero; lia).
    destruct (@avg_pool2d_shape t N C (2 ^ S k * h) (2 ^ S k * w) Hs HC)
      as (t1 & -> & Hs1); [cbn; nia|cbn; nia|].
    apply IH; [|assumption..].
    rewrite Hs1. f_equal. f_equal.
    replace (2 ^ S k * h) with ((2 ^ k * h) * 2) by (cbn; lia).
    replace (2 ^ S k * w) with ((2 ^ k * w) * 2) by (cbn; lia).
    now rewrite !Nat.div_mul by lia.
Qed.

Lemma broadcast_rev_refl (a : list nat) : broadcast_rev a a = Some a.
Proof.
  induction a as [|x a IH]; cbn; [reflexivity|].
  now rewrite IH, Nat.eqb_refl.
Qed.

Lemma tadd_same_shape (a b : tensor Q) :
  shape a = shape b -> exists t, tadd a b = Ok t /\ shape t = shape a.
Proof.
  intro H. unfold tadd, binop, broadcast_shapes. rewrite <- H.
  rewrite broadcast_rev_refl. cbn [option_map]. rewrite rev_involutive.
  eexists. split; reflexivity.
Qed.

(** the blend keeps the shape when both extents are even *)
Lemma blend_shape (t : tensor Q) N C h w alpha :
  shape t = [N; C; 2 * h; 2 * w] -> 0 < C -> 0 < h -> 0 < w ->
  exists t',
    (downsampled <-- avg_pool2d t ;;
     upsampled <-- interpolate_nearest downsampled 2 ;;
     tadd (tscale t (1 - alpha)) (tscale upsampled alpha)) = Ok t'
    /\ shape t' = shape t.
Proof.
  intros Hs HC Hh Hw.
  destruct (@avg_pool2d_shape t N C (2 * h) (2 * w) Hs HC)
    as (d & -> & Hd); [lia|lia|]. cbn [rbind].
  replace (2 * h / 2) with h in Hd by (rewrite Nat.mul_comm, Nat.div_mul; lia).
  replace (2 * w / 2) with w in Hd by (rewrite Nat.mul_comm, Nat.div_mul; lia).
  destruct (@interpolate_shape d N C h w 2%Q 2 Hd HC Hh Hw)
    as (u & -> & Hu); [lia|reflexivity|]. cbn [rbind].
  destruct (@tadd_same_shape (tscale t (1 - alpha)) (tscale u alpha))
    as (r & Hr & Hsr).
  - cbn. rewrite Hs, Hu. f_equal. f_equal. f_equal; [lia|f_equal; lia].
  - exists r. split; [exact Hr|exact Hsr].
Qed.

Lemma preprocess_image_zero (images : tensor Q) (lod : Q) :
  (lod == 0)%Q -> PiGANLoss.preprocess_image images lod = Ok images.
Proof.
  intro H0. unfold PiGANLoss.preprocess_image.
  assert (Hint : py_int lod = 0%Z).
  { destruct lod as [n d]. unfold Qeq in H0. cbn in H0.
    unfold py_int. cbn. replace n with 0%Z by lia. now apply Z.quot_0_l. }
  rewrite Hint. cbn [range1 Z.to_nat seq fold_left rbind].
  replace (Qeq_bool lod (inject_Z 0)) with true
    by (symmetry; now apply Qeq_bool_iff).
  reflexivity.
Qed.

Lemma preprocess_image_shape (images : tensor Q) (lod : Q) (N C H W : nat) :
  shape images = [N; C; H; W] -> 0 < C -> 0 < H -> 0 < W -> (0 <= lod)%Q ->
  Nat.divide (2 ^ Z.to_nat (Qceiling lod)) H ->
  Nat.divide (2 ^ Z.to_nat (Qceiling lod)) W ->
  exists out, PiGANLoss.preprocess_image images lod = Ok out
              /\ shape out = shape images.
Proof.
  intros Hs HC HH HW Hlod HdH HdW. unfold PiGANLoss.preprocess_image.
  pose proof (py_int_nonneg Hlod) as Hk0.
  rewrite (py_int_floor Hlod) in *.
  set (kz := Qfloor lod) in *. set (k := Z.to_nat kz).
  assert (Hkz : kz = Z.of_nat k) by (unfold k; lia).
  unfold range1. fold k.
  (* what is left after [k] halvings, and after the blend if there is one *)
  assert (Hmid : exists h w y,
    (images0 <-- fold_left (fun acc _ => rbind acc avg_pool2d) (seq 0 k)
                           (Ok images) ;;
     (if negb (Qeq_bool lod (inject_Z kz))
      then downsampled <-- avg_pool2d images0 ;;
           upsampled <-- interpolate_nearest downsampled 2 ;;
           tadd (tscale images0 (1 - (lod - inject_Z kz)))
                (tscale upsampled (lod - inject_Z kz))
      else Ok images0)) = Ok y
    /\ shape y = [N; C; h; w] /\ H = 2 ^ k * h /\ W = 2 ^ k * w
    /\ 0 < h /\ 0 < w).
  { destruct (Qeq_bool lod (inject_Z kz)) eqn:Eint; cbn [negb].
    - rewrite (ceiling_of_integer _ Eint) in HdH, HdW. fold kz k in HdH, HdW.
      destruct HdH as [h Eh]. destruct HdW as [w Ew].
      assert (0 < h) by nia. assert (0 < w) by nia.
      destruct (@pool_fold_shape k images 0 N C h w) as (t1 & -> & Hs1);
        try assumption.
      { rewrite Hs. f_equal. f_equal. f_equal; [lia|f_equal; lia]. }
      cbn [rbind]. exists h, w, t1. repeat split; try assumption; lia.
    - rewrite (ceiling_of_fraction _ Eint) in HdH, HdW. fold kz in HdH, HdW.
      replace (Z.to_nat (kz + 1)) with (S k) in HdH, HdW by lia.
      destruct HdH as [h Eh]. destruct HdW as [w Ew].
      cbn [Nat.pow] in Eh, Ew.
      assert (0 < h) by nia. assert (0 < w) by nia.
      destruct (@pool_fold_shape k images 0 N C (2 * h) (2 * w))
        as (t1 & -> & Hs1); try assumption; try lia.
      { rewrite Hs. f_equal. f_equal. f_equal; [lia|f_equal; lia]. }
      cbn [rbind].
      destruct (@blend_shape t1 N C h w (lod - inject_Z kz)%Q Hs1)
        as (t2 & -> & Hs2); try assumption.
      exists (2 * h), (2 * w), t2. rewrite Hs2, Hs1.
      repeat split; try lia. }
  destruct Hmid as (h & w & y & Hy & Hsy & EH & EW & Hh & Hw).
  destruct (fold_left _ (seq 0 k) (Ok images)) as [t1|e];
    cbn [rbind] in Hy |- *; [|discriminate].
  rewrite Hy. cbn [rbind].
  destruct (Z.eqb_spec kz 0) as [E0|E0].
  - exists y. split; [reflexivity|].
    assert (Hk : k = 0) by lia. rewrite Hk in EH, EW. cbn in EH, EW.
    rewrite Hsy, Hs. f_equal. f_equal. f_equal; [lia|f_equal; lia].
  - destruct (@interpolate_shape y N C h w (2 ^ kz)%Q (2 ^ k) Hsy HC Hh Hw)
      as (out & -> & Hso).
    + apply Nat.neq_0_lt_0, Nat.pow_nonzero. lia.
    + rewrite Hkz, pow2_inject, pow2_nat. reflexivity.
    + exists out. split; [reflexivity|]. rewrite Hso, Hs, EH, EW.
      f_equal. f_equal. f_equal; [lia|f_equal; lia].
Qed.

Lemma fold_iter {A} (f : A -> A) (k a : nat) (x : A) :
  fold_left (fun acc (_ : nat) => f acc) (seq a k) x = Nat.iter k f x.
Proof.
  revert a x. induction k as [|k IH]; intros a x; [reflexivity|].
  cbn [seq fold_left]. rewrite IH. symmetry. apply Nat.iter_succ_r.
Qed.

Lemma flat_map_ext_in {A B} (f g : A -> list B) (l : list A) :
  (forall a, In a l -> f a = g a) -> flat_map f l = flat_map g l.
Proof.
  induction l as [|a l IH]; intro H; cbn; [reflexivity|].
  rewrite H by (now left). rewrite IH; [reflexivity|].
  intros b Hb. apply H. now right.
Qed.

Lemma flat_map_singleton {A B} (f : A -> B) (l : list A) :
  flat_map (fun a => [f a]) l = map f l.
Proof. induction l; cbn; congruence. Qed.

Lemma seq_mul_succ (a b : nat) :
  seq 0 (S a * b) = seq 0 (a * b) ++ seq (a * b) b.
Proof.
  replace (S a * b) with (a * b + b) by lia. now rewrite seq_app.
Qed.

Lemma seq_from (a n : nat) : seq a n = map (fun b => a + b) (seq 0 n).
Proof.
  revert a. induction n as [|n IH]; intro a; [reflexivity|].
  cbn [seq map]. rewrite Nat.add_0_r. f_equal.
  rewrite (IH (S a)), (IH 1), map_map. apply map_ext. intro b. lia.
Qed.

Lemma flat_map_map {X Y Z} (h : X -> Y) (g : Y -> list Z) (l : list X) :
  flat_map g (map h l) = flat_map (fun x => g (h x)) l.
Proof. induction l; cbn; congruence. Qed.

(** a loop nest over [a] and [b] visits the indices [a * B + b] in order *)
Lemma flat_map_nest {X} (g : nat -> list X) (A B : nat) :
  flat_map (fun a => flat_map (fun b => g (a * B + b)) (seq 0 B)) (seq 0 A)
  = flat_map g (seq 0 (A * B)).
Proof.
  induction A as [|A IH]; [reflexivity|].
  rewrite seq_S, flat_map_app, IH, seq_mul_succ, flat_map_app. cbn [flat_map].
  rewrite app_nil_r. f_equal.
  rewrite (seq_from (A * B) B), flat_map_map. reflexivity.
Qed.

Lemma build4_flat (N C H W : nat) (f : nat -> nat -> nat -> nat -> Q)
    (F : nat -> Q) :
  (forall n c h w, n < N -> c < C -> h < H -> w < W ->
                   f n c h w = F (idx4 C H W n c h w)) ->
  data (build4 N C H W f) = map F (seq 0 (N * C * H * W)).
Proof.
  intro Hf. unfold build4. cbn [data].
  rewrite <- flat_map_singleton.
  rewrite <- (flat_map_nest (fun i => [F i]) (N * C * H) W).
  rewrite <- (flat_map_nest
                (fun r => flat_map (fun w => [F (r * W + w)]) (seq 0 W))
                (N * C) H).
  rewrite <- (flat_map_nest
                (fun r => flat_map (fun h =>
                   flat_map (fun w => [F ((r * H + h) * W + w)]) (seq 0 W))
                   (seq 0 H))
                N C).
  apply flat_map_ext_in. intros n Hn. apply in_seq in Hn.
  apply flat_map_ext_in. intros c Hc. apply in_seq in Hc.
  apply flat_map_ext_in. intros h Hh. apply in_seq in Hh.
  rewrite flat_map_singleton. apply map_ext_in. intros w Hw. apply in_seq in Hw.
  apply Hf; lia.
Qed.

Lemma nearest_src_one (L d : nat) : d < L -> nearest_src L 1 d = d.
Proof.
  intro H. unfold nearest_src.
  assert (E : (inject_Z (Z.of_nat d) * (1 / 1) == inject_Z (Z.of_nat d))%Q)
    by (field).
  rewrite E, Qfloor_Z, Nat2Z.id. lia.
Qed.

Lemma interpolate_one (y : tensor Q) (N C H W : nat) :
  shape y = [N; C; H; W] -> 0 < C -> 0 < H -> 0 < W -> wf y ->
  interpolate_nearest y 1 = Ok y.
Proof.
  intros Hs HC HH HW Hwf. unfold interpolate_nearest. rewrite Hs.
  rewrite !(@out_extent_integer _ 1%Q 1) by reflexivity.
  rewrite !Nat.mul_1_r.
  destruct (Nat.eqb_spec C 0); [lia|].
  destruct (Nat.eqb_spec H 0); [lia|].
  destruct (Nat.eqb_spec W 0); [lia|]. cbn [orb]. f_equal.
  destruct y as [sh d]. cbn [shape] in Hs. subst sh.
  unfold wf in Hwf. cbn in Hwf.
  unfold build4 at 1. f_equal.
  change (data (build4 N C H W (fun n c h w =>
            at4 (mkT [N; C; H; W] d) n c (nearest_src H 1 h)
                (nearest_src W 1 w))) = d).
  rewrite (@build4_flat N C H W _ (fun k => nth k d 0%Q)).
  - replace (N * C * H * W) with (List.length d) by lia.
    apply map_nth_seq_id.
  - intros i j h w Hi Hj Hh Hw. unfold at4. cbn [shape data].
    now rewrite !nearest_src_one.
Qed.

Lemma tadd_wf (a b t : tensor Q) : tadd a b = Ok t -> wf t.
Proof.
  unfold tadd, binop. destruct (broadcast_shapes _ _); [|discriminate].
  intro E. inversion E. unfold wf. cbn. now rewrite length_map, length_seq.
Qed.

Lemma avg_pool2d_inv (t d : tensor Q) :
  avg_pool2d t = Ok d ->
  exists N C H W, shape t = [N; C; H; W] /\ 0 < C /\ 2 <= H /\ 2 <= W
                  /\ shape d = [N; C; H / 2; W / 2].
Proof.
  unfold avg_pool2d.
  destruct (shape t) as [|N [|C [|H [|W [|]]]]]; try discriminate.
  destruct (Nat.eqb_spec C 0); [discriminate|].
  destruct (Nat.ltb_spec H 2); [discriminate|].
  destruct (Nat.ltb_spec W 2); [discriminate|]. cbn [orb].
  intro E. inversion E. exists N, C, H, W. cbn. repeat split; lia.
Qed.

Lemma interpolate_inv (t u : tensor Q) (s : Q) :
  interpolate_nearest t s = Ok u ->
  exists N C H W H' W',
    shape t = [N; C; H; W] /\ shape u = [N; C; H'; W']
    /\ 0 < C /\ 0 < H' /\ 0 < W'.
Proof.
  unfold interpolate_nearest.
  destruct (shape t) as [|N [|C [|H [|W [|]]]]]; try discriminate.
  destruct (Nat.eqb_spec C 0); [discriminate|].
  destruct (Nat.eqb_spec H 0); [discriminate|].
  destruct (Nat.eqb_spec W 0); [discriminate|].
  destruct (Nat.eqb_spec (out_extent H s) 0); [discriminate|].
  destruct (Nat.eqb_spec (out_extent W s) 0); [discriminate|]. cbn [orb].
  intro E. inversion E. do 6 eexists. cbn. repeat split; lia.
Qed.

(** broadcasting two non-empty images gives a non-empty image *)
Lemma tadd_image_shape (a b t : tensor Q) N C H W N' C' H' W' :
  shape a = [N; C; H; W] -> shape b = [N'; C'; H'; W'] ->
  0 < C -> 0 < H -> 0 < W -> 0 < C' -> 0 < H' -> 0 < W' ->
  tadd a b = Ok t ->
  exists n c h w, shape t = [n; c; h; w] /\ 0 < c /\ 0 < h /\ 0 < w.
Proof.
  intros Ha Hb HC HH HW HC' HH' HW'. unfold tadd, binop, broadcast_shapes.
  rewrite Ha, Hb. cbn [rev app broadcast_rev].
  repeat match goal with
         | |- context [?x =? ?y] => destruct (Nat.eqb_spec x y)
         end; cbn [option_map rev app]; try discriminate;
    intro E; inversion E; cbn [shape]; do 4 eexists;
    (split; [reflexivity|]); lia.
Qed.

Lemma preprocess_image_pipeline (images : tensor Q) (lod : Q) (N C H W : nat) :
  shape images = [N; C; H; W] -> 0 < C -> 0 < H -> 0 < W -> wf images ->
  PiGANLoss.preprocess_image images lod = lod_pipeline images lod.
Proof.
  intros Hs HC HH HW Hwf.
  unfold PiGANLoss.preprocess_image, lod_pipeline, downsample_times, range1.
  rewrite (fold_iter (fun acc => rbind acc avg_pool2d)).
  destruct (Z.eqb_spec (py_int lod) 0) as [E0|E0].
  2:{ destruct (Nat.iter _ _ _) as [x|e]; cbn [rbind]; [|reflexivity].
      unfold blend_with_coarser.
      destruct (Qeq_bool lod (inject_Z (py_int lod))); reflexivity. }
  rewrite E0. cbn [Z.to_nat]. unfold Nat.iter. cbn [nat_rect rbind].
  change (2 ^ 0)%Q with 1%Q.
  destruct (Qeq_bool lod (inject_Z 0)); cbn [negb rbind].
  - symmetry. eapply interpolate_one; eauto.
  - unfold blend_with_coarser.
    destruct (avg_pool2d images) as [d|e] eqn:Ed; cbn [rbind]; [|reflexivity].
    destruct (interpolate_nearest d 2) as [u|e] eqn:Eu; cbn [rbind];
      [|reflexivity].
    destruct (tadd _ _) as [y|e] eqn:Ey; cbn [rbind]; [|reflexivity].
    apply interpolate_inv in Eu.
    destruct Eu as (N1 & C1 & H1 & W1 & H2 & W2 & _ & Hu & HC1 & HH2 & HW2).
    destruct (@tadd_image_shape (tscale images _) (tscale u _) y
                N C H W N1 C1 H2 W2 Hs Hu
                HC HH HW HC1 HH2 HW2 Ey)
      as (n & c & h & w & Hy & Hc & Hh & Hw).
    symmetry. eapply interpolate_one; eauto. eapply tadd_wf; eauto.
Qed.

(** *** Gradient penalty: [compute_grad_penalty] *)

Lemma backprop_partial rho (e : node) :
  forall ct i, (backprop rho e ct i == ct * partial rho e i)%Q.
Proof.
  induction e as [j|q|a IHa b IHb|a IHa b IHb|f f' a IHa]; intros ct i;
    cbn [backprop partial].
  - destruct (i =? j); ring.
  - ring.
  - rewrite IHa, IHb. ring.
  - rewrite IHa, IHb. ring.
  - rewrite IHa. ring.
Qed.

Lemma partial_fold_add rho (l : list node) (acc : node) i :
  (partial rho (fold_left Add l acc) i
   == partial rho acc i + qsum (map (fun e => partial rho e i) l))%Q.
Proof.
  revert acc. induction l as [|e l IH]; intro acc; cbn [fold_left map qsum fold_right].
  - ring.
  - rewrite IH. cbn [partial]. unfold qsum. ring.
Qed.

Lemma partial_tsum_scaled rho (t : tensor node) (s : Q) i :
  (partial rho (tsum (tmap (fun e => Mul e (Const s)) t)) i
   == s * partial rho (tsum t) i)%Q.
Proof.
  unfold tsum. cbn [data tmap]. rewrite !partial_fold_add, map_map.
  rewrite (qsum_ext (fun e => partial rho (Mul e (Const s)) i)
                    (fun e => s * partial rho e i)%Q).
  - rewrite <- (map_map (fun e => partial rho e i) (fun x => s * x)%Q).
    rewrite qsum_scale. cbn [partial]. ring.
  - intros e _. cbn [partial eval]. ring.
Qed.

Lemma occurs_fold_add i (l : list node) (acc : node) :
  occurs i (fold_left Add l acc) = occurs i acc || existsb (occurs i) l.
Proof.
  revert acc. induction l as [|e l IH]; intro acc; cbn [fold_left existsb].
  - now rewrite orb_false_r.
  - rewrite IH. cbn [occurs]. now rewrite orb_assoc.
Qed.

Lemma occurs_tsum_scaled i (t : tensor node) (s : Q) :
  occurs i (tsum (tmap (fun e => Mul e (Const s)) t)) = occurs i (tsum t).
Proof.
  unfold tsum. cbn [data tmap]. rewrite !occurs_fold_add. f_equal.
  induction (data t) as [|e l IH]; cbn; [reflexivity|].
  now rewrite IH, orb_false_r.
Qed.

Lemma differentiable_scaled (t inputs : tensor node) (s : Q) :
  differentiable (tsum (tmap (fun e => Mul e (Const s)) t)) inputs
  = differentiable (tsum t) inputs.
Proof.
  unfold differentiable. f_equal.
  induction (data inputs) as [|e l IH]; cbn [existsb]; [reflexivity|].
  rewrite IH. f_equal. destruct e; cbn [leaf_used]; try reflexivity.
  apply occurs_tsum_scaled.
Qed.

Lemma square_sum_123_proper (a b : tensor Q) :
  tensor_eq a b -> result_eq (square_sum_123 a) (square_sum_123 b).
Proof.
  intros [Hs Hd]. unfold square_sum_123. rewrite <- Hs.
  destruct (shape a) as [|N [|C [|H [|W [|]]]]]; cbn; try reflexivity.
  split; [reflexivity|]. cbn.
  induction (seq 0 N) as [|n l IH]; cbn; constructor; [|exact IH].
  apply qsum_Forall2.
  assert (Hrow : Forall2 Qeq (firstn (C * H * W) (skipn (n * (C * H * W)) (data a)))
                             (firstn (C * H * W) (skipn (n * (C * H * W)) (data b))))
    by (apply Forall2_firstn, Forall2_skipn, Hd).
  induction Hrow as [|x y ? ? Hxy _ IHr]; cbn; constructor; [|exact IHr].
  now rewrite Hxy.
Qed.

Lemma amp_rescaling_exact :
  forall (rho : nat -> Q) (images scores : tensor node) (s : Q),
    (0 < s)%Q ->
    result_eq
      (PiGANLoss.compute_grad_penalty rho images scores
         (GradScaler.mk true s))
      (PiGANLoss.compute_grad_penalty rho images scores
         (GradScaler.mk false s)).
Proof.
  intros rho images scores s Hs.
  unfold PiGANLoss.compute_grad_penalty, GradScaler.scale,
    GradScaler.is_enabled, GradScaler.get_scale. cbn [GradScaler.enabled GradScaler.scale_factor].
  unfold grad. rewrite differentiable_scaled.
  destruct (differentiable (tsum scores) images); cbn [rbind]; [|reflexivity].
  apply square_sum_123_proper. split; [reflexivity|]. cbn [data tmap].
  rewrite map_map. apply Forall2_map_Qeq. intro e.
  destruct e; cbn [grad_entry]; try (field; lra).
  rewrite !backprop_partial, partial_tsum_scaled. field. lra.
Qed.

Lemma penalty_without_scaling rho (images scores : tensor node) (s : Q)
    (N C H W : nat) :
  shape images = [N; C; H; W] ->
  differentiable (tsum scores) images = true ->
  exists p,
    PiGANLoss.compute_grad_penalty rho images scores (GradScaler.mk false s)
    = Ok p
    /\ shape p = [N] /\ List.length (data p) = N
    /\ forall i, i < N ->
         (nth i (data p) 0
          == squared_norm (grad_row rho scores images (C * H * W) i))%Q.
Proof.
  intros Hs Hd.
  unfold PiGANLoss.compute_grad_penalty, GradScaler.scale,
    GradScaler.is_enabled. cbn [GradScaler.enabled].
  unfold grad. rewrite Hd. cbn [rbind].
  unfold square_sum_123. cbn [shape tmap]. rewrite Hs.
  eexists. split; [reflexivity|]. cbn [shape data].
  split; [reflexivity|]. split; [now rewrite length_map, length_seq|].
  intros i Hi.
  rewrite (nth_indep _ 0%Q
             ((fun n => qsum (map (fun x => x * x)%Q
                 (firstn (C * H * W)
                    (skipn (n * (C * H * W))
                       (map (grad_entry rho (tsum scores)) (data images))))))
              0))
    by (now rewrite length_map, length_seq).
  rewrite (map_nth (fun n => qsum (map (fun x => x * x)%Q
                 (firstn (C * H * W)
                    (skipn (n * (C * H * W))
                       (map (grad_entry rho (tsum scores)) (data images))))))).
  rewrite seq_nth by exact Hi. cbn [Nat.add].
  unfold squared_norm, grad_row, row. apply qsum_Forall2, map_squares_Forall2.
  rewrite skipn_map, firstn_map. apply Forall2_map_Qeq.
  intro e. destruct e; cbn [grad_entry]; try reflexivity.
  rewrite backprop_partial. ring.
Qed.

Lemma penalty_is_squared_norm rho (images scores : tensor node)
    (sc : GradScaler.t) (N C H W : nat) :
  shape images = [N; C; H; W] ->
  (GradScaler.enabled sc = true -> (0 < GradScaler.scale_factor sc)%Q) ->
  differentiable (tsum scores) images = true ->
  exists p,
    PiGANLoss.compute_grad_penalty rho images scores sc = Ok p
    /\ shape p = [N] /\ List.length (data p) = N
    /\ forall i, i < N ->
         (nth i (data p) 0
          == squared_norm (grad_row rho scores images (C * H * W) i))%Q.
Proof.
  intros Hs Hsc Hd. destruct sc as [[|] s]; cbn in Hsc.
  - destruct (@penalty_without_scaling rho images scores s N C H W Hs Hd)
      as (p0 & E0 & Hp0 & Hl0 & Hv0).
    pose proof (@amp_rescaling_exact rho images scores s (Hsc eq_refl)) as Heq.
    rewrite E0 in Heq.
    destruct (PiGANLoss.compute_grad_penalty rho images scores
                (GradScaler.mk true s)) as [p|e]; cbn in Heq; [|contradiction].
    destruct Heq as [Hshape Hdata].
    exists p. split; [reflexivity|]. split; [congruence|].
    split; [rewrite (Forall2_length_Qeq Hdata); exact Hl0|].
    intros i Hi. rewrite (Forall2_nth_Qeq i Hdata). now apply Hv0.
  - now apply penalty_without_scaling.
Qed.


(** *** Discriminator loss: [d_loss] *)










(** *** Top-k selection in [g_loss] *)





(** *** The claims about the losses *)

(** C1, as amended.  When the summed scores can be differentiated with
    respect to the images, a batch of [N] images of [C * H * W] entries,
    [compute_grad_penalty] returns one penalty per sample, and the penalty
    of sample [i] is the sum over channel, height and width of the squared
    partial derivatives of the summed scores with respect to that sample's
    image: the square of the Euclidean norm of the gradient, not the norm.
    A mixed-precision scaler that is enabled has a positive scale. *)
Theorem grad_penalty_is_squared_norm :
  forall (rho : nat -> Q) (images scores : tensor node) (sc : GradScaler.t)
         (N C H W : nat),
    shape images = [N; C; H; W] ->
    (GradScaler.enabled sc = true -> (0 < GradScaler.scale_factor sc)%Q) ->
    differentiable (tsum scores) images = true ->
    exists p,
      compute_grad_penalty rho images scores sc = Ok p
      /\ shape p = [N] /\ List.length (data p) = N
      /\ forall i, i < N ->
           (item p i
            == squared_norm (grad_row rho scores images (C * H * W) i))%Q
           /\ forall x,
                is_euclidean_norm (grad_row rho scores images (C * H * W) i) x
                -> (item p i == x * x)%Q.
Proof.
  intros rho images scores sc N C H W Hs Hsc Hd.
  destruct (@penalty_is_squared_norm rho images scores sc N C H W Hs Hsc Hd)
    as (p & E & Hp & Hl & Hv).
  exists p. repeat split; try assumption.
  - now apply Hv.
  - intros x [_ Hx]. unfold item. rewrite Hv by assumption. now symmetry.
Qed.

Lemma grad_penalty_is_squared_norm_witness :
  exists p,
    compute_grad_penalty (fun _ => 3%Q) DemoLoss.pixel DemoLoss.pixel_score
                         (GradScaler.mk true 1024%Q) = Ok p
    /\ (item p 0 == 4)%Q.
Proof.
  destruct (grad_penalty_is_squared_norm (fun _ => 3%Q) DemoLoss.pixel
              DemoLoss.pixel_score (GradScaler.mk true 1024%Q)
              (N := 1) (C := 1) (H := 1) (W := 1))
    as (p & E & _ & _ & Hv).
  - reflexivity.
  - intros _. reflexivity.
  - reflexivity.
  - exists p. split; [exact E|].
    destruct (Hv 0) as [H0 _]; [lia|]. rewrite H0. reflexivity.
Defined.

(** C1, as stated, fails: for one pixel [x] and the score [2 * x] the
    gradient is [2], its Euclidean norm is 2, and the penalty is 4. *)
Lemma grad_penalty_not_euclidean_norm :
  compute_grad_penalty (fun _ => 3%Q) DemoLoss.pixel DemoLoss.pixel_score
                       DemoLoss.no_amp
  = Ok (mkT [1] [4%Q])
  /\ grad_row (fun _ => 3%Q) DemoLoss.pixel_score DemoLoss.pixel 1 0 = [2%Q]
  /\ is_euclidean_norm [2%Q] 2
  /\ ~ is_euclidean_norm [2%Q] 4.
Proof.
  split; [reflexivity|]. split; [reflexivity|]. split.
  - split; [discriminate|reflexivity].
  - intros [_ H]. vm_compute in H. discriminate.
Qed.

(** C2.  With exact arithmetic the rescaling for mixed precision does not
    change the penalty: with an enabled scaler of positive scale the call
    ends as it does with a disabled one, and the penalties are equal. *)
Theorem amp_rescaling_preserves_penalty :
  forall (rho : nat -> Q) (images scores : tensor node)
         (enabled disabled : GradScaler.t),
    GradScaler.enabled enabled = true ->
    (0 < GradScaler.scale_factor enabled)%Q ->
    GradScaler.enabled disabled = false ->
    result_eq (compute_grad_penalty rho images scores enabled)
              (compute_grad_penalty rho images scores disabled).
Proof.
  intros rho images scores [e s] [e' s'] He Hs He'. cbn in He, Hs, He'.
  subst e e'.
  pose proof (@amp_rescaling_exact rho images scores s Hs) as H.
  unfold compute_grad_penalty, GradScaler.scale, GradScaler.is_enabled,
    GradScaler.get_scale in *.
  cbn [GradScaler.enabled GradScaler.scale_factor] in *. exact H.
Qed.

Lemma amp_rescaling_preserves_penalty_witness :
  result_eq
    (compute_grad_penalty (fun _ => 3%Q) DemoLoss.pixel DemoLoss.pixel_score
                          (GradScaler.mk true 1024%Q))
    (Ok (mkT [1] [4%Q])).
Proof.
  apply (amp_rescaling_preserves_penalty (fun _ => 3%Q) DemoLoss.pixel
           DemoLoss.pixel_score (GradScaler.mk true 1024%Q) DemoLoss.no_amp);
    reflexivity.
Defined.



(** C4, as amended.  For [lod = 0] the images are returned unchanged.
    For a well-formed batch of images with at least one channel, row and
    column, [preprocess_image] is the pipeline of the specification:
    [int(lod)] halvings by 2x2 average pooling, a blend with the
    once-more-halved and nearest-upsampled copy with weight
    [alpha = lod - int(lod)] when [lod] is not an integer, and a nearest
    upsampling by [2 ** int(lod)].  For [lod >= 0] and such a batch whose
    height and width are divisible by [2 ** ceil(lod)], it returns images
    of the shape of its input. *)
Theorem preprocess_image_lod :
  forall (images : tensor Q) (lod : Q),
    ((lod == 0)%Q -> preprocess_image images lod = Ok images)
    /\ forall N C H W,
         shape images = [N; C; H; W] -> 0 < C -> 0 < H -> 0 < W ->
         (wf images -> preprocess_image images lod = lod_pipeline images lod)
         /\ ((0 <= lod)%Q ->
             Nat.divide (2 ^ Z.to_nat (Qceiling lod)) H ->
             Nat.divide (2 ^ Z.to_nat (Qceiling lod)) W ->
             exists out, preprocess_image images lod = Ok out
                         /\ shape out = shape images).
Proof.
  intros images lod. split; [apply preprocess_image_zero|].
  intros N C H W Hs HC HH HW. split.
  - intro Hwf. eapply preprocess_image_pipeline; eauto.
  - intros Hlod HdH HdW. eapply preprocess_image_shape; eauto.
Qed.

(** A 4x4 image at [lod = 3/2]: one halving, a blend, and back to 4x4. *)
Lemma preprocess_image_lod_witness :
  preprocess_image DemoLoss.image44 0%Q = Ok DemoLoss.image44
  /\ preprocess_image DemoLoss.image44 (3 # 2)%Q
     = lod_pipeline DemoLoss.image44 (3 # 2)%Q
  /\ exists out, preprocess_image DemoLoss.image44 (3 # 2)%Q = Ok out
                 /\ shape out = [1; 1; 4; 4].
Proof.
  split; [|split].
  - apply (preprocess_image_lod DemoLoss.image44 0%Q). reflexivity.
  - apply (proj2 (preprocess_image_lod DemoLoss.image44 (3 # 2)%Q)
             1 1 4 4); try reflexivity; lia.
  - apply (proj2 (preprocess_image_lod DemoLoss.image44 (3 # 2)%Q)
             1 1 4 4); try reflexivity; try lia;
      first [discriminate | exists 1; reflexivity].
Defined.

(** C4, as stated, fails for a negative [lod]: at [lod = -1/2] every
    extent is divisible by [2 ** ceil(lod) = 1], yet on a 3x3 image the
    blend adds a 3x3 and a 2x2 tensor and raises. *)
Lemma preprocess_image_negative_lod :
  shape DemoLoss.image33 = [1; 1; 3; 3]
  /\ Nat.divide (2 ^ Z.to_nat (Qceiling (- (1 # 2)))) 3
  /\ preprocess_image DemoLoss.image33 (- (1 # 2))%Q = Raise RuntimeError.
Proof.
  split; [reflexivity|]. split; [exists 3; reflexivity|reflexivity].
Qed.







End LossFacts.
